(** * templepoints: the submission ledger, the achievement evaluator,
      the leaderboard projection and the broadcast hub

    A shallow embedding of the Go sources [handlers.go], [database.go],
    [main.go] and [models.go].

    - The SQLite database is a record of tables, each table a list of rows
      in rowid order.  SQL statements are list operations; the constraints
      of [createTables] that decide the outcome of a statement (PRIMARY KEY
      AUTOINCREMENT, FOREIGN KEY with [_foreign_keys=on], UNIQUE with
      [INSERT OR IGNORE]) are written out.
    - INTEGER columns and Go [int]s are carried as [Z].  The only integer
      arithmetic of the handlers is done by SQLite ([points + ?],
      [pending_points - ?], [SUM(points)]); it is exact on [Z] as long as
      the totals stay inside 64 bits, which is the range this development
      covers.
    - The one FLOAT expression, the progress column of the leaderboard
      query, is carried on exact rationals [Q].
    - [CURRENT_TIMESTAMP] is an explicit argument [now] (seconds).
    - A handler is a function from the server state and the decoded request
      to the new state and the response.  What a handler hands to
      [hub.broadcast] is appended to a trace kept in the server state.
    - The hub ([Hub.run]) is a step function over the set of registered
      clients and the buffered [send] channel of every client. *)

From stdpp Require Import gmap strings list.
From Stdlib Require Import ZArith QArith Qround Qabs Lia Lqa String Ascii List.
From Stdlib Require Import Decimal DecimalString DecimalZ DecimalPos DecimalN.
Import ListNotations.

#[local] Open Scope string_scope.
#[local] Open Scope Z_scope.

(* ===================================================================== *)
(** * Go library functions used by the handlers *)
(* ===================================================================== *)

Module GoLib.

(** Go's [int] on the 64-bit targets the image is built for. *)
Definition MinInt : Z := - 2 ^ 63.
Definition MaxInt : Z := 2 ^ 63 - 1.

Definition is_int (z : Z) : bool := (MinInt <=? z) && (z <=? MaxInt).

(** [fmt.Sprintf("%d", n)]: the decimal digits, with a leading minus sign
    for a negative number. *)
Definition FormatInt (n : Z) : string := NilZero.string_of_int (Z.to_int n).

(** [strconv.Atoi]: an optional sign ([+] or [-]) followed by at least
    one decimal digit and nothing else; a value outside [int] is a range
    error.  [None] stands for a non-nil [error]. *)
Definition split_sign (s : string) : bool * string :=
  match s with
  | String c rest =>
      if Ascii.eqb c "-" then (true, rest)
      else if Ascii.eqb c "+" then (false, rest)
      else (false, s)
  | EmptyString => (false, s)
  end.

Definition Atoi (s : string) : option Z :=
  let '(neg, digits) := split_sign s in
  match NilZero.uint_of_string digits with
  | Some d =>
      let n := Z.of_uint d in
      let v := if neg then - n else n in
      if is_int v then Some v else None
  | None => None
  end.

(** [net/http] status codes. *)
Definition StatusBadRequest : Z := 400.
Definition StatusUnauthorized : Z := 401.
Definition StatusForbidden : Z := 403.
Definition StatusNotFound : Z := 404.
Definition StatusInternalServerError : Z := 500.

End GoLib.
Import GoLib.

(* ===================================================================== *)
(** * models.go and the schema of createTables *)
(* ===================================================================== *)

(** [status TEXT CHECK(status IN ('pending','approved','rejected'))] *)
Inductive Status := pending | approved | rejected.

(** [role TEXT CHECK(role IN ('admin','ward_approver'))] *)
Inductive Role := admin | ward_approver.

Definition Status_eqb (a b : Status) : bool :=
  match a, b with
  | pending, pending | approved, approved | rejected, rejected => true
  | _, _ => false
  end.

Definition Role_eqb (a b : Role) : bool :=
  match a, b with
  | admin, admin | ward_approver, ward_approver => true
  | _, _ => false
  end.

Record Ward := {
  Ward_ID : Z;
  Ward_Name : string;
  Ward_Points : Z;
  Ward_PendingPoints : Z;
  Ward_CreatedAt : Z
}.

Record User := {
  User_ID : Z;
  User_Email : string;
  User_Role : Role;
  User_WardID : option Z
}.

Record PointSubmission := {
  Sub_ID : Z;
  Sub_WardID : Z;
  Sub_SubmitterName : string;
  Sub_Points : Z;
  Sub_Note : string;
  Sub_Status : Status;
  Sub_ApprovedBy : option Z;
  Sub_ApprovedAt : option Z;
  Sub_CreatedAt : Z
}.

Record Achievement := {
  Ach_ID : Z;
  Ach_WardID : Z;
  Ach_Type : string;
  Ach_Title : string;
  Ach_Icon : string;
  Ach_EarnedAt : Z
}.

Record ActivityLog := {
  Log_ID : Z;
  Log_WardID : Z;
  Log_UserID : option Z;
  Log_Action : string;
  Log_Details : string;
  Log_Points : Z;
  Log_CreatedAt : Z
}.


(** The database: one list of rows per table, oldest row first. *)
Record DB := {
  wards : list Ward;
  users : list User;
  point_submissions : list PointSubmission;
  achievements : list Achievement;
  activity_logs : list ActivityLog
}.

(* ===================================================================== *)
(** * SQL statements of handlers.go and database.go *)
(* ===================================================================== *)

Module Sql.

(** [INTEGER PRIMARY KEY AUTOINCREMENT]: one more than the largest rowid
    the table has held.  No statement of the program deletes a row, so
    this is the largest rowid present (0 for an empty table). *)
Definition next_rowid {A : Type} (rowid : A -> Z) (rows : list A) : Z :=
  1 + fold_right Z.max 0 (List.map rowid rows).

Definition ward_exists (d : DB) (wardID : Z) : bool :=
  existsb (fun w => Ward_ID w =? wardID) (wards d).

Definition user_exists (d : DB) (userID : Z) : bool :=
  existsb (fun u => User_ID u =? userID) (users d).

(** A nullable foreign key: NULL always passes. *)
Definition user_fk (d : DB) (userID : option Z) : bool :=
  match userID with
  | None => true
  | Some u => user_exists d u
  end.

Definition set_wards (ws : list Ward) (d : DB) : DB :=
  {| wards := ws; users := users d;
     point_submissions := point_submissions d;
     achievements := achievements d; activity_logs := activity_logs d |}.

Definition set_users (us : list User) (d : DB) : DB :=
  {| wards := wards d; users := us;
     point_submissions := point_submissions d;
     achievements := achievements d; activity_logs := activity_logs d |}.

Definition set_point_submissions (ps : list PointSubmission) (d : DB) : DB :=
  {| wards := wards d; users := users d;
     point_submissions := ps;
     achievements := achievements d; activity_logs := activity_logs d |}.

Definition set_achievements (acs : list Achievement) (d : DB) : DB :=
  {| wards := wards d; users := users d;
     point_submissions := point_submissions d;
     achievements := acs; activity_logs := activity_logs d |}.

Definition set_activity_logs (ls : list ActivityLog) (d : DB) : DB :=
  {| wards := wards d; users := users d;
     point_submissions := point_submissions d;
     achievements := achievements d; activity_logs := ls |}.

(** [INSERT INTO wards (name) VALUES (?)]; [name] is UNIQUE. *)
Definition insert_ward (now : Z) (name : string) (d : DB) : option DB :=
  if existsb (fun w => String.eqb (Ward_Name w) name) (wards d) then None
  else
    Some (set_wards
            (wards d ++ [ {| Ward_ID := next_rowid Ward_ID (wards d);
                             Ward_Name := name;
                             Ward_Points := 0;
                             Ward_PendingPoints := 0;
                             Ward_CreatedAt := now |} ]) d).

(** [INSERT INTO users (email, password, role) VALUES (?, ?, ?)];
    [email] is UNIQUE.  The password hash is not part of the model. *)
Definition insert_user (email : string) (role : Role) (d : DB) : option DB :=
  if existsb (fun u => String.eqb (User_Email u) email) (users d) then None
  else
    Some (set_users
            (users d ++ [ {| User_ID := next_rowid User_ID (users d);
                             User_Email := email;
                             User_Role := role;
                             User_WardID := None |} ]) d).

(** [INSERT INTO point_submissions (ward_id, submitter_name, points, note
    [, status, approved_at]) VALUES (...)].  The foreign key on [ward_id]
    is enforced: the statement fails ([None]) when the ward is missing.
    On success the new rowid ([LastInsertId]) is returned. *)
Definition insert_point_submission (now : Z) (wardID : Z) (name : string)
    (points : Z) (note : string) (st : Status) (approvedAt : option Z)
    (d : DB) : option (Z * DB) :=
  if ward_exists d wardID then
    let id := next_rowid Sub_ID (point_submissions d) in
    Some (id,
          set_point_submissions
            (point_submissions d ++
               [ {| Sub_ID := id; Sub_WardID := wardID;
                    Sub_SubmitterName := name; Sub_Points := points;
                    Sub_Note := note; Sub_Status := st;
                    Sub_ApprovedBy := None; Sub_ApprovedAt := approvedAt;
                    Sub_CreatedAt := now |} ]) d)
  else None.

(** [SELECT COALESCE(SUM(points), 0) FROM point_submissions
     WHERE ward_id = ? AND status = ?] *)
Fixpoint sum_points (wardID : Z) (st : Status) (ps : list PointSubmission) : Z :=
  match ps with
  | [] => 0
  | p :: rest =>
      (if (Sub_WardID p =? wardID) && Status_eqb (Sub_Status p) st
       then Sub_Points p else 0) + sum_points wardID st rest
  end.

(** [UPDATE wards SET ... WHERE id = ?] *)
Definition update_ward (f : Ward -> Ward) (wardID : Z) (d : DB) : DB :=
  set_wards
    (List.map (fun w => if Ward_ID w =? wardID then f w else w) (wards d)) d.

Definition with_pending (v : Z) (w : Ward) : Ward :=
  {| Ward_ID := Ward_ID w; Ward_Name := Ward_Name w;
     Ward_Points := Ward_Points w; Ward_PendingPoints := v;
     Ward_CreatedAt := Ward_CreatedAt w |}.

Definition with_points (v : Z) (w : Ward) : Ward :=
  {| Ward_ID := Ward_ID w; Ward_Name := Ward_Name w;
     Ward_Points := v; Ward_PendingPoints := Ward_PendingPoints w;
     Ward_CreatedAt := Ward_CreatedAt w |}.

(** [UPDATE wards SET pending_points = (SELECT COALESCE(SUM(points), 0)
     FROM point_submissions WHERE ward_id = ? AND status = 'pending')
     WHERE id = ?] *)
Definition recompute_pending (wardID : Z) (d : DB) : DB :=
  update_ward
    (with_pending (sum_points wardID pending (point_submissions d)))
    wardID d.

(** [UPDATE wards SET points = points + ?,
     pending_points = pending_points - ? WHERE id = ?] *)
Definition move_pending_to_points (points : Z) (wardID : Z) (d : DB) : DB :=
  update_ward
    (fun w => with_points (Ward_Points w + points)
                (with_pending (Ward_PendingPoints w - points) w))
    wardID d.

(** [UPDATE wards SET pending_points = pending_points - ? WHERE id = ?] *)
Definition subtract_pending (points : Z) (wardID : Z) (d : DB) : DB :=
  update_ward (fun w => with_pending (Ward_PendingPoints w - points) w)
    wardID d.

(** [SELECT ... FROM point_submissions WHERE id = ? AND status = 'pending']
    read with [QueryRow]: the first matching row, [None] for
    [sql.ErrNoRows]. *)
Definition select_pending (submissionID : Z) (d : DB) : option PointSubmission :=
  List.find
    (fun p => (Sub_ID p =? submissionID) && Status_eqb (Sub_Status p) pending)
    (point_submissions d).

Definition decide_submission (st : Status) (userID now : Z)
    (p : PointSubmission) : PointSubmission :=
  {| Sub_ID := Sub_ID p; Sub_WardID := Sub_WardID p;
     Sub_SubmitterName := Sub_SubmitterName p; Sub_Points := Sub_Points p;
     Sub_Note := Sub_Note p; Sub_Status := st;
     Sub_ApprovedBy := Some userID; Sub_ApprovedAt := Some now;
     Sub_CreatedAt := Sub_CreatedAt p |}.

(** [UPDATE point_submissions SET status = ?, approved_by = ?,
     approved_at = CURRENT_TIMESTAMP WHERE id = ?].  [approved_by]
    references [users(id)]: the statement fails when a row would be
    changed to a user that does not exist. *)
Definition update_submission_status (st : Status) (userID now : Z)
    (submissionID : Z) (d : DB) : option DB :=
  if existsb (fun p => Sub_ID p =? submissionID) (point_submissions d)
     && negb (user_exists d userID)
  then None
  else
    Some (set_point_submissions
            (List.map (fun p => if Sub_ID p =? submissionID
                                then decide_submission st userID now p
                                else p)
               (point_submissions d)) d).

(** [SELECT role, ward_id FROM users WHERE id = ?] with [QueryRow]. *)
Definition select_user (userID : Z) (d : DB) : option User :=
  List.find (fun u => User_ID u =? userID) (users d).

(** [SELECT points FROM wards WHERE id = ?] with [QueryRow]. *)
Definition select_ward (wardID : Z) (d : DB) : option Ward :=
  List.find (fun w => Ward_ID w =? wardID) (wards d).

(** [INSERT INTO activity_logs (ward_id, user_id, action, details, points)
     VALUES (?, ?, ?, ?, ?)], with both foreign keys enforced. *)
Definition insert_activity_log (now : Z) (wardID : Z) (userID : option Z)
    (action details : string) (points : Z) (d : DB) : option DB :=
  if ward_exists d wardID && user_fk d userID then
    Some (set_activity_logs
            (activity_logs d ++
               [ {| Log_ID := next_rowid Log_ID (activity_logs d);
                    Log_WardID := wardID; Log_UserID := userID;
                    Log_Action := action; Log_Details := details;
                    Log_Points := points; Log_CreatedAt := now |} ]) d)
  else None.

Definition has_achievement (wardID : Z) (aType : string) (d : DB) : bool :=
  existsb (fun a => (Ach_WardID a =? wardID) && String.eqb (Ach_Type a) aType)
    (achievements d).

(** [INSERT OR IGNORE INTO achievements (ward_id, type, title, icon)
     VALUES (?, ?, ?, ?)].  A row that would break [UNIQUE(ward_id, type)]
    is skipped and the statement still succeeds; [OR IGNORE] does not
    cover the foreign key, so a missing ward is an error ([None]). *)
Definition insert_or_ignore_achievement (now : Z) (wardID : Z)
    (aType title icon : string) (d : DB) : option DB :=
  if has_achievement wardID aType d then Some d
  else if negb (ward_exists d wardID) then None
  else
    Some (set_achievements
            (achievements d ++
               [ {| Ach_ID := next_rowid Ach_ID (achievements d);
                    Ach_WardID := wardID; Ach_Type := aType;
                    Ach_Title := title; Ach_Icon := icon;
                    Ach_EarnedAt := now |} ]) d).

End Sql.
Import Sql.

(* ===================================================================== *)
(** * handlers.go *)
(* ===================================================================== *)

(** What [broadcastUpdate] hands to [hub.broadcast]: the envelope type and,
    for an achievement, its data.  The data of a [leaderboard-update] is the
    snapshot [getLeaderboardEntries]/[getStats] compute from the database
    at that moment; the trace records only that the update was sent. *)
Inductive Event :=
| leaderboard_update
| achievement (ward : string) (achievement : string) (milestone : string).

Record Server := {
  db : DB;
  hub_broadcast : list Event
}.

(** The parts of an [http.Request] the handlers read: the value of the
    cookie named [session] when there is one, and the [{id}] route
    variable. *)
Record Request := {
  cookie_session : option string;
  vars_id : string
}.

(** The JSON body of [POST /api/points] once decoded. *)
Record SubmitBody := {
  body_WardID : Z;
  body_SubmitterName : string;
  body_Points : Z;
  body_Note : string
}.

(** [http.Error(w, msg, code)], or the JSON object written on success. *)
Inductive Response :=
| http_Error (error : string) (code : Z)
| json_success (id : option Z) (message : string).

Definition with_db (d : DB) (s : Server) : Server :=
  {| db := d; hub_broadcast := hub_broadcast s |}.

Definition broadcastUpdate (e : Event) (s : Server) : Server :=
  {| db := db s; hub_broadcast := hub_broadcast s ++ [e] |}.

Definition getUserIDFromSession (r : Request) : Z :=
  match cookie_session r with
  | None => 0
  | Some value =>
      match Atoi value with
      | None => 0
      | Some userID => userID
      end
  end.

Definition canApproveForWard (d : DB) (userID wardID : Z) : bool :=
  match select_user userID d with
  | None => false
  | Some u =>
      if Role_eqb (User_Role u) admin then true
      else
        match User_WardID u with
        | Some userWardID =>
            Role_eqb (User_Role u) ward_approver && (userWardID =? wardID)
        | None => false
        end
  end.

(** An error of the insert is only logged. *)
Definition logActivity (now : Z) (wardID : Z) (userID : option Z)
    (action details : string) (points : Z) (s : Server) : Server :=
  match insert_activity_log now wardID userID action details points (db s) with
  | Some d => with_db d s
  | None => s
  end.

Definition broadcastLeaderboardUpdate (s : Server) : Server :=
  broadcastUpdate leaderboard_update s.

Definition broadcastAchievement (wardID : Z) (title : string) (s : Server) : Server :=
  let wardName :=
    match select_ward wardID (db s) with
    | Some w => Ward_Name w
    | None => ""
    end in
  broadcastUpdate
    (achievement wardName title (wardName ++ " earned: " ++ title)%string) s.

(** The table of [checkAndAwardAchievements]:
    condition, type, title, icon. *)
Definition achievement_table (points : Z) : list (bool * string * string * string) :=
  [ (100 <=? points, "first_100", "First 100 Points!", "💯");
    (500 <=? points, "first_500", "First to 500!", "⚡");
    (1000 <=? points, "first_1000", "Thousand Club!", "🎯");
    (1300 <=? points, "goal_reached", "Goal Achieved!", "🏆") ].

(** The body of the [for _, ach := range achievements] loop. *)
Definition award (now : Z) (wardID : Z)
    (ach : bool * string * string * string) (s : Server) : Server :=
  let '(condition, aType, title, icon) := ach in
  if condition then
    match insert_or_ignore_achievement now wardID aType title icon (db s) with
    | Some d => broadcastAchievement wardID title (with_db d s)
    | None => s
    end
  else s.

Definition checkAndAwardAchievements (now : Z) (wardID : Z) (s : Server) : Server :=
  let points :=
    match select_ward wardID (db s) with
    | Some w => Ward_Points w
    | None => 0
    end in
  fold_left (fun acc ach => award now wardID ach acc) (achievement_table points) s.

Definition handleSubmitPoints (now : Z) (body : option SubmitBody) (s : Server)
    : Server * Response :=
  match body with
  | None => (s, http_Error "Invalid request" StatusBadRequest)
  | Some submission =>
      if (body_WardID submission =? 0)
         || String.eqb (body_SubmitterName submission) ""
         || (body_Points submission <=? 0)
      then (s, http_Error "Missing required fields" StatusBadRequest)
      else
        match insert_point_submission now (body_WardID submission)
                (body_SubmitterName submission) (body_Points submission)
                (body_Note submission) pending None (db s) with
        | None =>
            (s, http_Error "Failed to submit points" StatusInternalServerError)
        | Some (submissionID, d1) =>
            let s1 := with_db (recompute_pending (body_WardID submission) d1) s in
            let s2 :=
              logActivity now (body_WardID submission) None "points_submitted"
                (body_SubmitterName submission ++ " submitted "
                   ++ FormatInt (body_Points submission) ++ " points")%string
                (body_Points submission) s1 in
            let s3 := broadcastLeaderboardUpdate s2 in
            (s3, json_success (Some submissionID)
                   "Points submitted successfully! Waiting for approval.")
        end
  end.

Definition handleApprovePoints (now : Z) (r : Request) (s : Server)
    : Server * Response :=
  let userID := getUserIDFromSession r in
  if userID =? 0 then (s, http_Error "Unauthorized" StatusUnauthorized)
  else
    match Atoi (vars_id r) with
    | None => (s, http_Error "Invalid submission ID" StatusBadRequest)
    | Some submissionID =>
        match select_pending submissionID (db s) with
        | None =>
            (s, http_Error "Submission not found or already processed"
                  StatusNotFound)
        | Some sub =>
            let wardID := Sub_WardID sub in
            let points := Sub_Points sub in
            let submitterName := Sub_SubmitterName sub in
            if negb (canApproveForWard (db s) userID wardID)
            then (s, http_Error "Not authorized to approve for this ward"
                       StatusForbidden)
            else
              match update_submission_status approved userID now
                      submissionID (db s) with
              | None =>
                  (s, http_Error "Failed to approve submission"
                        StatusInternalServerError)
              | Some d1 =>
                  let s1 := with_db (move_pending_to_points points wardID d1) s in
                  let s2 := checkAndAwardAchievements now wardID s1 in
                  let s3 :=
                    logActivity now wardID (Some userID) "points_approved"
                      ("Approved " ++ FormatInt points ++ " points from "
                         ++ submitterName)%string points s2 in
                  let s4 := broadcastLeaderboardUpdate s3 in
                  (s4, json_success None "Points approved successfully!")
              end
        end
    end.

Definition handleRejectPoints (now : Z) (r : Request) (s : Server)
    : Server * Response :=
  let userID := getUserIDFromSession r in
  if userID =? 0 then (s, http_Error "Unauthorized" StatusUnauthorized)
  else
    match Atoi (vars_id r) with
    | None => (s, http_Error "Invalid submission ID" StatusBadRequest)
    | Some submissionID =>
        match select_pending submissionID (db s) with
        | None => (s, http_Error "Submission not found" StatusNotFound)
        | Some sub =>
            let wardID := Sub_WardID sub in
            let points := Sub_Points sub in
            if negb (canApproveForWard (db s) userID wardID)
            then (s, http_Error "Not authorized" StatusForbidden)
            else
              match update_submission_status rejected userID now
                      submissionID (db s) with
              | None =>
                  (s, http_Error "Failed to reject submission"
                        StatusInternalServerError)
              | Some d1 =>
                  let s1 := with_db (subtract_pending points wardID d1) s in
                  let s2 := broadcastLeaderboardUpdate s1 in
                  (s2, json_success None "Points rejected")
              end
        end
    end.

(** ** The leaderboard query *)

(** SQLite's [ROUND(x, 1)]: the decimal with one digit after the point that
    is nearest to [x], a tie going away from zero.  SQLite works on IEEE
    doubles; the embedding works on exact rationals. *)
Definition sql_round1 (x : Q) : Q :=
  let t := (x * inject_Z 10)%Q in
  let n := if Qle_bool 0 t then Qfloor (t + (1 # 2))%Q
           else - Qfloor (- t + (1 # 2))%Q in
  (inject_Z n / inject_Z 10)%Q.

(** [ROUND(CAST(w.points AS FLOAT) / 1300 * 100, 1) as progress] *)
Definition progress (points : Z) : Q :=
  sql_round1 (inject_Z points / inject_Z 1300 * inject_Z 100)%Q.










(* ===================================================================== *)
(** * database.go: initDB *)
(* ===================================================================== *)

Definition createTables : DB :=
  {| wards := []; users := []; point_submissions := [];
     achievements := []; activity_logs := [] |}.

Definition seed_wards : list string :=
  [ "Fountain Green 1st Ward"; "Fountain Green 2nd Ward";
    "Fountain Green 3rd Ward"; "Moroni 1st Ward"; "Moroni 2nd Ward";
    "Moroni 3rd Ward"; "Sanpitch Ward" ].

Definition sampleSubmissions : list (Z * Z * Status) :=
  [ (4, 847, approved); (2, 765, approved); (7, 692, approved);
    (6, 543, approved); (1, 489, approved); (5, 412, approved);
    (3, 387, approved);
    (4, 50, pending); (2, 55, pending); (6, 35, pending);
    (1, 25, pending); (3, 55, pending) ].

Definition seed_achievements : list (Z * string * string * string) :=
  [ (4, "first_500", "First to 500!", "⚡");
    (4, "week_champion", "Week Champion", "🏆");
    (4, "streak_3", "3 Day Streak!", "🔥");
    (2, "rising_star", "Rising Star", "✨");
    (2, "team_player", "Team Player", "🤝");
    (7, "consistent", "Consistent", "📊");
    (6, "getting_started", "Getting Started", "🌟");
    (3, "momentum", "Building Momentum!", "🚀") ].

(** [UPDATE wards SET points = (SELECT COALESCE(SUM(points), 0) ... AND
     status = 'approved'), pending_points = (... AND status = 'pending')],
    over every ward. *)
Definition recompute_all_wards (d : DB) : DB :=
  set_wards
    (List.map
       (fun w =>
          with_points (sum_points (Ward_ID w) approved (point_submissions d))
            (with_pending (sum_points (Ward_ID w) pending (point_submissions d)) w))
       (wards d)) d.

(** [seedData]: nothing to do when the table of wards has rows; a failed
    ward insert aborts with an error ([None]); a failed admin, submission
    or achievement insert is only logged. *)
Definition seedData (now : Z) (d : DB) : option DB :=
  if 0 <? Z.of_nat (length (wards d)) then Some d
  else
    match fold_left
            (fun acc name =>
               match acc with
               | Some d' => insert_ward now name d'
               | None => None
               end) seed_wards (Some d) with
    | None => None
    | Some d1 =>
        let d2 :=
          match insert_user "admin@templepoints.org" admin d1 with
          | Some d' => d'
          | None => d1
          end in
        let d3 :=
          fold_left
            (fun acc sub =>
               let '(wardID, points, st) := sub in
               match insert_point_submission now wardID "Demo User" points
                       "Initial seed data" st
                       (if Status_eqb st approved then Some now else None)
                       acc with
               | Some (_, d') => d'
               | None => acc
               end) sampleSubmissions d2 in
        let d4 := recompute_all_wards d3 in
        let d5 :=
          fold_left
            (fun acc ach =>
               let '(wardID, aType, title, icon) := ach in
               match insert_or_ignore_achievement now wardID aType title icon
                       acc with
               | Some d' => d'
               | None => acc
               end) seed_achievements d4 in
        Some d5
    end.

Definition initDB (now : Z) : option DB := seedData now createTables.

(** [NewServer]: the seeded database and nothing sent to the hub yet. *)
Definition NewServer (now : Z) : option Server :=
  match initDB now with
  | Some d => Some {| db := d; hub_broadcast := [] |}
  | None => None
  end.

(* ===================================================================== *)
(** * main.go: the hub *)
(* ===================================================================== *)

Module HubModel.
Section Hub.

(** The payload of [hub.broadcast] and of every [send] channel
    ([[]byte] in the source). *)
Variable Message : Type.

(** A buffered channel: what is queued, the capacity it was made with,
    and whether it has been closed. *)
Record Chan := {
  queue : list Message;
  capacity : nat;
  closed : bool
}.

(** [*Client]: clients are known by their address. *)
Definition ClientRef := positive.

Record Client := { send : Chan }.

(** [Hub.clients] is the set of keys of [map[*Client]bool]; [heap] holds
    the clients themselves. *)
Record Hub := {
  clients : gset ClientRef;
  heap : gmap ClientRef Client
}.

(** What arrives on [h.register], [h.unregister], [h.broadcast]. *)
Inductive HubMsg :=
| register (client : ClientRef)
| unregister (client : ClientRef)
| broadcast (message : Message).

Definition full (c : Chan) : bool := (capacity c <=? length (queue c))%nat.

Definition enqueue (m : Message) (c : Chan) : Chan :=
  {| queue := queue c ++ [m]; capacity := capacity c; closed := closed c |}.

(** [close(ch)]; closing a closed channel panics ([None]). *)
Definition close (c : Chan) : option Chan :=
  if closed c then None
  else Some {| queue := queue c; capacity := capacity c; closed := true |}.

(** [make(chan []byte, 256)] in [handleWebSocket]. *)
Definition make_chan : Chan := {| queue := []; capacity := 256; closed := false |}.

(** [NewServer]: an empty hub. *)
Definition new_hub : Hub := {| clients := ∅; heap := ∅ |}.

(** [handleWebSocket] allocates the client with its channel; the
    address is one that is not in use. *)
Definition new_client (c : ClientRef) (h : Hub) : option Hub :=
  match heap h !! c with
  | Some _ => None
  | None => Some {| clients := clients h;
                    heap := <[c := {| send := make_chan |}]> (heap h) |}
  end.

(** One turn of the inner [select] of the broadcast case, for one client:
    [case client.send <- message:] when the channel has room, and
    otherwise [default: close(client.send); delete(h.clients, client)].
    A send on a closed channel panics ([None]). *)
Definition offer (m : Message) (c : ClientRef) (h : Hub) : option Hub :=
  match heap h !! c with
  | None => None
  | Some cl =>
      if closed (send cl) then None
      else if full (send cl) then
        match close (send cl) with
        | None => None
        | Some ch => Some {| clients := clients h ∖ {[c]};
                             heap := <[c := {| send := ch |}]> (heap h) |}
        end
      else
        Some {| clients := clients h;
                heap := <[c := {| send := enqueue m (send cl) |}]> (heap h) |}
  end.

(** [for client := range h.clients], in the order [order] the runtime
    happens to enumerate the map. *)
Fixpoint broadcast_loop (m : Message) (order : list ClientRef) (h : Hub)
    : option Hub :=
  match order with
  | [] => Some h
  | c :: rest =>
      match offer m c h with
      | None => None
      | Some h' => broadcast_loop m rest h'
      end
  end.

(** One iteration of the [for { select { ... } }] of [Hub.run]. *)
Definition run (order : list ClientRef) (msg : HubMsg) (h : Hub) : option Hub :=
  match msg with
  | register c =>
      Some {| clients := clients h ∪ {[c]}; heap := heap h |}
  | unregister c =>
      if decide (c ∈ clients h) then
        match heap h !! c with
        | None => None
        | Some cl =>
            match close (send cl) with
            | None => None
            | Some ch => Some {| clients := clients h ∖ {[c]};
                                 heap := <[c := {| send := ch |}]> (heap h) |}
            end
        end
      else Some h
  | broadcast m => broadcast_loop m order h
  end.

(** Every registered client is allocated and its channel is open. *)
Definition hub_wf (h : Hub) : Prop :=
  ∀ c, c ∈ clients h →
       ∃ cl, heap h !! c = Some cl ∧ closed (send cl) = false.

End Hub.

Arguments queue {Message} _.
Arguments capacity {Message} _.
Arguments closed {Message} _.
Arguments send {Message} _.
Arguments clients {Message} _.
Arguments heap {Message} _.
Arguments register {Message} _.
Arguments unregister {Message} _.
Arguments broadcast {Message} _.
Arguments full {Message} _.
Arguments enqueue {Message} _ _.
Arguments close {Message} _.
Arguments new_client {Message} _ _.
Arguments offer {Message} _ _ _.
Arguments broadcast_loop {Message} _ _ _.
Arguments run {Message} _ _ _.
Arguments hub_wf {Message} _.

(** What the inner [select] leaves of a client whose channel is open. *)
Definition offered {Message : Type} (m : Message) (cl : Client Message)
    : Client Message :=
  if full (send cl)
  then {| send := {| queue := queue (send cl);
                     capacity := capacity (send cl);
                     closed := true |} |}
  else {| send := enqueue m (send cl) |}.

End HubModel.

(* ===================================================================== *)
(** * Runs of the ledger and the properties stated about them *)
(* ===================================================================== *)

(** The three operations of the submission ledger, as requests. *)
Inductive Op :=
| Submit (body : option SubmitBody)
| Approve (r : Request)
| Reject (r : Request).

Definition exec (now : Z) (op : Op) (s : Server) : Server * Response :=
  match op with
  | Submit body => handleSubmitPoints now body s
  | Approve r => handleApprovePoints now r s
  | Reject r => handleRejectPoints now r s
  end.

(** The states the server goes through: it starts from [NewServer] on an
    empty database file and serves one request after the other. *)
Inductive reachable : Server -> Prop :=
| reachable_init now s :
    NewServer now = Some s -> reachable s
| reachable_step now op s :
    reachable s -> reachable (fst (exec now op s)).


(** [id INTEGER PRIMARY KEY] of [point_submissions]. *)
Definition submission_ids_unique (d : DB) : Prop :=
  NoDup (List.map Sub_ID (point_submissions d)).

(** [SELECT * FROM point_submissions WHERE id = ?] *)
Definition find_submission (submissionID : Z) (d : DB) : option PointSubmission :=
  List.find (fun p => Sub_ID p =? submissionID) (point_submissions d).

(** The achievement events of a trace. *)
Definition is_achievement (e : Event) : bool :=
  match e with
  | achievement _ _ _ => true
  | leaderboard_update => false
  end.

(** [UNIQUE(ward_id, type)] of [achievements]. *)
Definition achievement_keys (d : DB) : list (Z * string) :=
  List.map (fun a => (Ach_WardID a, Ach_Type a)) (achievements d).



(** A server as [NewServer] builds it at time 0, for the examples. *)
Definition demo_server : Server :=
  match NewServer 0 with
  | Some s => s
  | None => {| db := createTables; hub_broadcast := [] |}
  end.

(** The seeded pending submission 8 (50 points for ward 4), the ward it
    belongs to, and requests of the seeded admin (user 1). *)
Definition demo_submission : PointSubmission :=
  {| Sub_ID := 8; Sub_WardID := 4; Sub_SubmitterName := "Demo User";
     Sub_Points := 50; Sub_Note := "Initial seed data"; Sub_Status := pending;
     Sub_ApprovedBy := None; Sub_ApprovedAt := None; Sub_CreatedAt := 0 |}.



Definition admin_request (id : string) : Request :=
  {| cookie_session := Some "1"; vars_id := id |}.

Definition stranger_request (id : string) : Request :=
  {| cookie_session := Some "5"; vars_id := id |}.

Definition demo_body (wardID points : Z) : SubmitBody :=
  {| body_WardID := wardID; body_SubmitterName := "A";
     body_Points := points; body_Note := "" |}.


(** A hub with two clients whose channels hold one message each: client 1
    has a full queue, client 2 an empty one. *)
Definition demo_hub : HubModel.Hub nat :=
  {| HubModel.clients := {[ 1%positive; 2%positive ]};
     HubModel.heap :=
       {[ 1%positive :=
            {| HubModel.send :=
                 {| HubModel.queue := [7%nat]; HubModel.capacity := 1;
                    HubModel.closed := false |} |};
          2%positive :=
            {| HubModel.send :=
                 {| HubModel.queue := []; HubModel.capacity := 1;
                    HubModel.closed := false |} |} ]} |}.

(* ===================================================================== *)
(** * Further vocabulary for runs of the server *)
(* ===================================================================== *)

(** A sequence of requests with their arrival times, served in order. *)
Fixpoint exec_all (requests : list (Z * Op)) (s : Server) : Server :=
  match requests with
  | [] => s
  | (now, op) :: rest => exec_all rest (fst (exec now op s))
  end.

(** The foreign keys declared by [createTables]. *)
Definition foreign_keys_hold (d : DB) : Prop :=
  (forall p, In p (point_submissions d) ->
     ward_exists d (Sub_WardID p) = true /\ user_fk d (Sub_ApprovedBy p) = true) /\
  (forall a, In a (achievements d) -> ward_exists d (Ach_WardID a) = true) /\
  (forall l, In l (activity_logs d) ->
     ward_exists d (Log_WardID l) = true /\ user_fk d (Log_UserID l) = true) /\
  (forall u, In u (users d) ->
     match User_WardID u with
     | Some wardID => ward_exists d wardID = true
     | None => True
     end).

(** The row a Submit inserts. *)
Definition submitted_row (now id : Z) (b : SubmitBody) : PointSubmission :=
  {| Sub_ID := id; Sub_WardID := body_WardID b;
     Sub_SubmitterName := body_SubmitterName b; Sub_Points := body_Points b;
     Sub_Note := body_Note b; Sub_Status := pending;
     Sub_ApprovedBy := None; Sub_ApprovedAt := None; Sub_CreatedAt := now |}.

(** The columns of a ward no handler writes. *)
Definition same_ward (f : Ward -> Ward) : Prop :=
  forall w, Ward_ID (f w) = Ward_ID w /\ Ward_Name (f w) = Ward_Name w /\
            Ward_CreatedAt (f w) = Ward_CreatedAt w.


(** What identifies a ward: the columns besides the two totals. *)
Definition ward_key (w : Ward) : Z * string * Z :=
  (Ward_ID w, Ward_Name w, Ward_CreatedAt w).

(** Two Submits and an Approve, for the examples. *)
Definition demo_requests : list (Z * Op) :=
  [ (5, Submit (Some (demo_body 2 30)));
    (6, Approve (admin_request "13"));
    (7, Reject (admin_request "9")) ].

(* ===================================================================== *)
(** * Session identity ([getUserIDFromSession], [handleLogin]) *)
(* ===================================================================== *)

Section Session.

Lemma of_uint_to_uint (p : positive) : Z.of_uint (Pos.to_uint p) = Z.pos p.
Proof.
  unfold Z.of_uint. now rewrite DecimalPos.Unsigned.of_to.
Qed.

Lemma split_sign_digits (p : positive) :
  split_sign (NilZero.string_of_uint (Pos.to_uint p))
  = (false, NilZero.string_of_uint (Pos.to_uint p)).
Proof.
  pose proof (DecimalPos.Unsigned.to_uint_nonnil p) as Hnil.
  destruct (Pos.to_uint p); [congruence | reflexivity ..].
Qed.

(** The cookie [handleLogin] writes for a user is read back as that
    user: [Atoi] undoes [Sprintf("%d", _)] on every [int]. *)
Lemma Atoi_FormatInt (n : Z) : is_int n = true -> Atoi (FormatInt n) = Some n.
Proof.
  intros Hn. unfold Atoi, FormatInt.
  pose proof (fun p => NilZero.usu _ (DecimalPos.Unsigned.to_uint_nonnil p)) as Husu.
  destruct n as [|p|p]; simpl.
  - reflexivity.
  - rewrite split_sign_digits, Husu, of_uint_to_uint. now rewrite Hn.
  - rewrite Husu, of_uint_to_uint.
    change (- Z.pos p) with (Z.neg p). now rewrite Hn.
Qed.

Example Atoi_signed : Atoi "-12" = Some (-12) /\ Atoi "+7" = Some 7.
Proof. split; reflexivity. Qed.

Example Atoi_syntax_error :
  Atoi "" = None /\ Atoi "-" = None /\ Atoi "12a" = None /\ Atoi " 1" = None.
Proof. repeat split; reflexivity. Qed.

Example Atoi_range_error :
  Atoi "9223372036854775807" = Some MaxInt /\
  Atoi "9223372036854775808" = None /\
  Atoi "-9223372036854775808" = Some MinInt.
Proof. repeat split; vm_compute; reflexivity. Qed.

Lemma getUserIDFromSession_parsed (r : Request) (value : string) (n : Z) :
  cookie_session r = Some value -> Atoi value = Some n ->
  getUserIDFromSession r = n.
Proof.
  intros Hc Ha. unfold getUserIDFromSession. now rewrite Hc, Ha.
Qed.

End Session.

(* ===================================================================== *)
(** * What each helper leaves untouched *)
(* ===================================================================== *)

Section Frames.

Lemma logActivity_frame now wardID userID action details points s :
  let s' := logActivity now wardID userID action details points s in
  wards (db s') = wards (db s) /\
  users (db s') = users (db s) /\
  point_submissions (db s') = point_submissions (db s) /\
  achievements (db s') = achievements (db s) /\
  hub_broadcast s' = hub_broadcast s.
Proof.
  unfold logActivity, insert_activity_log.
  destruct (ward_exists (db s) wardID && user_fk (db s) userID); simpl; auto.
Qed.

Lemma broadcastAchievement_frame wardID title s :
  db (broadcastAchievement wardID title s) = db s.
Proof. reflexivity. Qed.

Lemma award_frame now wardID ach s :
  let s' := award now wardID ach s in
  wards (db s') = wards (db s) /\
  users (db s') = users (db s) /\
  point_submissions (db s') = point_submissions (db s) /\
  activity_logs (db s') = activity_logs (db s).
Proof.
  destruct ach as [[[condition aType] title] icon]. unfold award.
  destruct condition; [|auto].
  unfold insert_or_ignore_achievement.
  destruct (has_achievement wardID aType (db s)); [simpl; auto|].
  destruct (ward_exists (db s) wardID); simpl; auto.
Qed.

Lemma fold_award_frame now wardID table s :
  let s' := fold_left (fun acc ach => award now wardID ach acc) table s in
  wards (db s') = wards (db s) /\
  users (db s') = users (db s) /\
  point_submissions (db s') = point_submissions (db s) /\
  activity_logs (db s') = activity_logs (db s).
Proof.
  revert s. induction table as [|ach table IH]; intros s; simpl; [auto|].
  destruct (IH (award now wardID ach s)) as (H1 & H2 & H3 & H4).
  destruct (award_frame now wardID ach s) as (G1 & G2 & G3 & G4).
  simpl in *. repeat split; congruence.
Qed.

Lemma checkAndAwardAchievements_frame now wardID s :
  let s' := checkAndAwardAchievements now wardID s in
  wards (db s') = wards (db s) /\
  users (db s') = users (db s) /\
  point_submissions (db s') = point_submissions (db s) /\
  activity_logs (db s') = activity_logs (db s).
Proof. apply fold_award_frame. Qed.

End Frames.

(* ===================================================================== *)
(** * Sums over the ledger *)
(* ===================================================================== *)

Section Sums.


Lemma next_rowid_above {A : Type} (rowid : A -> Z) (rows : list A) (x : A) :
  In x rows -> rowid x < next_rowid rowid rows.
Proof.
  unfold next_rowid. induction rows as [|y rows IH]; simpl; [tauto|].
  intros [->|Hin]; [lia|]. specialize (IH Hin). lia.
Qed.

Lemma next_rowid_fresh {A : Type} (rowid : A -> Z) (rows : list A) :
  ~ In (next_rowid rowid rows) (List.map rowid rows).
Proof.
  intros Hin. apply in_map_iff in Hin as (x & Hx & Hin).
  apply (next_rowid_above rowid) in Hin. lia.
Qed.


Lemma find_pending_in submissionID l sub :
  List.find (fun p => (Sub_ID p =? submissionID)
                      && Status_eqb (Sub_Status p) pending) l = Some sub ->
  In sub l /\ Sub_ID sub = submissionID /\ Sub_Status sub = pending.
Proof.
  intros H. apply find_some in H as [Hin Hb].
  apply andb_prop in Hb as [Hid Hst]. apply Z.eqb_eq in Hid.
  repeat split; auto. now destruct (Sub_Status sub).
Qed.


End Sums.

(* ===================================================================== *)
(** * The ledger invariant *)
(* ===================================================================== *)

Section Ledger.


Lemma unique_ext d d' :
  point_submissions d' = point_submissions d ->
  submission_ids_unique d -> submission_ids_unique d'.
Proof. unfold submission_ids_unique. now intros ->. Qed.

Lemma map_decide_ids st userID now submissionID l :
  List.map Sub_ID
    (List.map (fun p => if Sub_ID p =? submissionID
                        then decide_submission st userID now p else p) l)
  = List.map Sub_ID l.
Proof.
  rewrite List.map_map. apply List.map_ext. intros p.
  now destruct (Sub_ID p =? submissionID).
Qed.


Lemma insert_unique now wardID name points note st at' d id d1 :
  insert_point_submission now wardID name points note st at' d
    = Some (id, d1) ->
  submission_ids_unique d -> submission_ids_unique d1.
Proof.
  unfold insert_point_submission, submission_ids_unique.
  destruct (ward_exists d wardID); [|discriminate].
  intros [= <- <-] Hnd. simpl. rewrite List.map_app. simpl.
  apply List.NoDup_app; auto.
  - repeat constructor. intros [].
  - intros x Hx [<-|[]]. now apply (next_rowid_fresh Sub_ID) in Hx.
Qed.



Lemma update_status_unique st userID now submissionID d d1 :
  update_submission_status st userID now submissionID d = Some d1 ->
  submission_ids_unique d -> submission_ids_unique d1.
Proof.
  unfold update_submission_status, submission_ids_unique.
  destruct (_ && _); [discriminate|]. intros [= <-]. simpl.
  now rewrite map_decide_ids.
Qed.

End Ledger.

Section LedgerRuns.







End LedgerRuns.

(* ===================================================================== *)
(** * Lookups after a decision *)
(* ===================================================================== *)

Section Lookups.

Lemma unique_id_eq l p q :
  NoDup (List.map Sub_ID l) -> In p l -> In q l -> Sub_ID p = Sub_ID q -> p = q.
Proof.
  induction l as [|x l IH]; simpl; [tauto|].
  intros Hnd Hp Hq He. inversion Hnd as [|? ? Hnotin Hnd']; subst.
  destruct Hp as [->|Hp], Hq as [->|Hq]; auto.
  - exfalso. apply Hnotin. rewrite He. now apply in_map.
  - exfalso. apply Hnotin. rewrite <- He. now apply in_map.
Qed.


Lemma select_pending_none d submissionID :
  select_pending submissionID d = None <->
  (forall p, In p (point_submissions d) -> Sub_ID p = submissionID ->
             Sub_Status p <> pending).
Proof.
  unfold select_pending. split.
  - intros Hf p Hin Hid Hst. apply (find_none _ _ Hf) in Hin.
    rewrite Hid, Z.eqb_refl, Hst in Hin. discriminate.
  - intros H. destruct (List.find _ _) as [q|] eqn:Hf; [|reflexivity].
    apply find_pending_in in Hf as (Hq & Hid & Hst).
    now destruct (H q Hq Hid).
Qed.

Lemma find_submission_found d sub :
  submission_ids_unique d -> In sub (point_submissions d) ->
  find_submission (Sub_ID sub) d = Some sub.
Proof.
  unfold find_submission, submission_ids_unique. intros Hnd Hin.
  destruct (List.find _ _) as [q|] eqn:Hf.
  - apply find_some in Hf as [Hq Hid]. apply Z.eqb_eq in Hid.
    f_equal. eapply unique_id_eq; eauto.
  - apply (find_none _ _ Hf) in Hin. rewrite Z.eqb_refl in Hin. discriminate.
Qed.


(** No row with the id is pending once the UPDATE has run. *)
Lemma no_pending_after_decision st userID now submissionID l :
  st <> pending ->
  List.find (fun p => (Sub_ID p =? submissionID)
                      && Status_eqb (Sub_Status p) pending)
    (List.map (fun p => if Sub_ID p =? submissionID
                        then decide_submission st userID now p else p) l)
  = None.
Proof.
  intros Hst. induction l as [|p l IH]; simpl; [reflexivity|].
  destruct (Sub_ID p =? submissionID) eqn:He; simpl; rewrite He; simpl; auto.
  destruct st; simpl; auto. congruence.
Qed.





End Lookups.

(* ===================================================================== *)
(** * Approve and Reject *)
(* ===================================================================== *)

Section Decisions.





End Decisions.

Section Refusals.

(** After a successful Approve no row with that id is pending. *)
Lemma approved_not_pending now r s s' id msg submissionID :
  Atoi (vars_id r) = Some submissionID ->
  handleApprovePoints now r s = (s', json_success id msg) ->
  select_pending submissionID (db s') = None.
Proof.
  intros Ha. unfold handleApprovePoints. rewrite Ha.
  destruct (getUserIDFromSession r =? 0); [discriminate|].
  destruct (select_pending submissionID (db s)) as [sub|]; [|discriminate].
  destruct (negb _); [discriminate|].
  unfold update_submission_status.
  destruct (_ && _); [discriminate|]. cbv zeta.
  intros [= <- _ _].
  match goal with
  | |- context [logActivity ?n ?wd ?u ?a ?dt ?p ?s2] =>
      destruct (logActivity_frame n wd u a dt p s2) as (F1 & F2 & F3 & F4 & F5);
      match s2 with
      | checkAndAwardAchievements ?n' ?w' ?s1 =>
          destruct (checkAndAwardAchievements_frame n' w' s1)
            as (G1 & G2 & G3 & G4)
      end
  end.
  cbv zeta in *. unfold select_pending, broadcastLeaderboardUpdate, broadcastUpdate.
  cbn [db]. rewrite F3, G3. cbn.
  now apply no_pending_after_decision.
Qed.

(** C3.  For an identified caller and a well-formed id: Approve answers
    NotFound when no submission with the id is pending (none with that id,
    or only approved or rejected ones), and Forbidden when the pending
    submission belongs to a ward the caller may not approve for; neither
    changes the state.  Approve repeated after a successful Approve answers
    NotFound and leaves the whole state, the ward totals with it, as the
    first call left it. *)
Theorem handleApprovePoints_refusals now now' r s submissionID :
  getUserIDFromSession r <> 0 ->
  Atoi (vars_id r) = Some submissionID ->
  ((forall p, In p (point_submissions (db s)) -> Sub_ID p = submissionID ->
              Sub_Status p <> pending) ->
   handleApprovePoints now r s
   = (s, http_Error "Submission not found or already processed" StatusNotFound))
  /\
  (forall sub,
     select_pending submissionID (db s) = Some sub ->
     canApproveForWard (db s) (getUserIDFromSession r) (Sub_WardID sub) = false ->
     handleApprovePoints now r s
     = (s, http_Error "Not authorized to approve for this ward" StatusForbidden))
  /\
  (forall s' id msg,
     handleApprovePoints now r s = (s', json_success id msg) ->
     handleApprovePoints now' r s'
     = (s', http_Error "Submission not found or already processed" StatusNotFound)).
Proof.
  intros Hu Ha. pose proof Hu as Hu'. apply Z.eqb_neq in Hu'.
  repeat split.
  - intros Hnone. apply select_pending_none in Hnone.
    unfold handleApprovePoints. now rewrite Hu', Ha, Hnone.
  - intros sub Hsel Hcan.
    unfold handleApprovePoints. now rewrite Hu', Ha, Hsel, Hcan.
  - intros s' id msg Hok.
    pose proof (approved_not_pending _ _ _ _ _ _ _ Ha Hok) as Hnone.
    unfold handleApprovePoints. now rewrite Hu', Ha, Hnone.
Qed.

End Refusals.

(* ===================================================================== *)
(** * Submit: what is refused *)
(* ===================================================================== *)

Section SubmitRefusals.

(** C7.  A Submit whose points are zero or negative, or whose submitter
    name is empty, is answered 400 and the state (submissions, activity
    log, what was sent to the hub) is the one before the request. *)
Theorem handleSubmitPoints_invalid now submission s :
  body_Points submission <= 0 \/ body_SubmitterName submission = "" ->
  handleSubmitPoints now (Some submission) s
  = (s, http_Error "Missing required fields" StatusBadRequest).
Proof.
  intros H. unfold handleSubmitPoints.
  replace (_ || _ || _) with true; [reflexivity|].
  symmetry. destruct H as [H| ->].
  - apply Z.leb_le in H. rewrite H. now rewrite !Bool.orb_true_r.
  - simpl. now rewrite Bool.orb_true_r.
Qed.

(** The foreign key of [point_submissions.ward_id] refuses the insert. *)
Lemma insert_unknown_ward now wardID name points note st at' d :
  ward_exists d wardID = false ->
  insert_point_submission now wardID name points note st at' d = None.
Proof. intros H. unfold insert_point_submission. now rewrite H. Qed.

(** C8, as the code has it.  A Submit for a ward that does not exist
    changes nothing and is answered with an error at once: 400 when the
    ward id is 0 (or the name is empty, or the points are not positive),
    and otherwise 500, the insert having been refused by the store. *)
Theorem handleSubmitPoints_unknown_ward now submission s :
  ward_exists (db s) (body_WardID submission) = false ->
  exists msg code,
    handleSubmitPoints now (Some submission) s = (s, http_Error msg code) /\
    (code = StatusBadRequest \/ code = StatusInternalServerError) /\
    (body_WardID submission <> 0 ->
     body_SubmitterName submission <> "" ->
     0 < body_Points submission ->
     msg = "Failed to submit points" /\ code = StatusInternalServerError) /\
    (body_WardID submission = 0 -> code = StatusBadRequest).
Proof.
  intros Hw. unfold handleSubmitPoints.
  rewrite (insert_unknown_ward _ _ _ _ _ _ _ _ Hw).
  destruct (_ || _) eqn:Hv.
  - eexists _, _. split; [reflexivity|]. split; [now left|]. split; [|reflexivity].
    intros H0 Hn Hp. exfalso.
    apply Bool.orb_true_iff in Hv as [Hv|Hv];
      [apply Bool.orb_true_iff in Hv as [Hv|Hv]|].
    + apply Z.eqb_eq in Hv. contradiction.
    + apply String.eqb_eq in Hv. contradiction.
    + apply Z.leb_le in Hv. lia.
  - eexists _, _. split; [reflexivity|]. split; [now right|]. split; [auto|].
    intros H0. rewrite H0 in Hv. discriminate.
Qed.

End SubmitRefusals.

(* ===================================================================== *)
(** * Session identity and the ledger invariant, as stated *)
(* ===================================================================== *)

Section IdentityAndInvariant.

Lemma approve_not_unauthorized now r s msg :
  getUserIDFromSession r <> 0 ->
  snd (handleApprovePoints now r s) <> http_Error msg StatusUnauthorized.
Proof.
  intros Hu. apply Z.eqb_neq in Hu. unfold handleApprovePoints. rewrite Hu.
  destruct (Atoi (vars_id r)); [|discriminate].
  destruct (select_pending _ _); [|discriminate].
  destruct (negb _); [discriminate|].
  destruct (update_submission_status _ _ _ _ _); discriminate.
Qed.

Lemma reject_not_unauthorized now r s msg :
  getUserIDFromSession r <> 0 ->
  snd (handleRejectPoints now r s) <> http_Error msg StatusUnauthorized.
Proof.
  intros Hu. apply Z.eqb_neq in Hu. unfold handleRejectPoints. rewrite Hu.
  destruct (Atoi (vars_id r)); [|discriminate].
  destruct (select_pending _ _); [|discriminate].
  destruct (negb _); [discriminate|].
  destruct (update_submission_status _ _ _ _ _); discriminate.
Qed.

(** C10.  The identity of a request is decided by the value of its
    [session] cookie alone.  Two requests with the same cookie resolve to
    the same identity.  A cookie holding the decimal text of an [int] N
    (what [handleLogin] writes for user N), or any text [Atoi] reads as
    N, resolves to N, whatever the database holds; when N is not 0,
    Approve and Reject do not answer Unauthorized.  A request without the
    cookie, or whose cookie [Atoi] does not read, resolves to 0. *)
Theorem getUserIDFromSession_cookie_only (r1 r2 : Request) :
  cookie_session r1 = cookie_session r2 ->
  getUserIDFromSession r1 = getUserIDFromSession r2 /\
  (forall n, is_int n = true -> cookie_session r1 = Some (FormatInt n) ->
             getUserIDFromSession r2 = n) /\
  (forall value n, cookie_session r1 = Some value -> Atoi value = Some n ->
                   getUserIDFromSession r2 = n /\
                   (n <> 0 ->
                    forall now s msg,
                      snd (handleApprovePoints now r2 s)
                        <> http_Error msg StatusUnauthorized /\
                      snd (handleRejectPoints now r2 s)
                        <> http_Error msg StatusUnauthorized)) /\
  (cookie_session r1 = None -> getUserIDFromSession r2 = 0) /\
  (forall value, cookie_session r1 = Some value -> Atoi value = None ->
                 getUserIDFromSession r2 = 0).
Proof.
  intros Hc. unfold getUserIDFromSession at 1 2. rewrite Hc.
  split; [reflexivity|]. repeat split.
  - intros n Hn Hv. apply (getUserIDFromSession_parsed _ _ _ Hv).
    now apply Atoi_FormatInt.
  - now apply (getUserIDFromSession_parsed r2 value n).
  - apply approve_not_unauthorized.
    now rewrite (getUserIDFromSession_parsed r2 value n).
  - apply reject_not_unauthorized.
    now rewrite (getUserIDFromSession_parsed r2 value n).
  - intros Hn. unfold getUserIDFromSession. now rewrite Hn.
  - intros value Hv Ha. unfold getUserIDFromSession. now rewrite Hv, Ha.
Qed.


End IdentityAndInvariant.

(* ===================================================================== *)
(** * The achievement evaluator *)
(* ===================================================================== *)

Section Evaluator.

(** [INSERT OR IGNORE] of a pair that is present: no row, no error. *)
Lemma insert_or_ignore_present now wardID aType title icon d :
  has_achievement wardID aType d = true ->
  insert_or_ignore_achievement now wardID aType title icon d = Some d.
Proof. intros H. unfold insert_or_ignore_achievement. now rewrite H. Qed.

(** The loop body only ever appends to what was sent. *)
Lemma award_trace now wardID ach s :
  exists l, hub_broadcast (award now wardID ach s) = (hub_broadcast s ++ l)%list.
Proof.
  destruct ach as [[[condition aType] title] icon]. unfold award.
  destruct condition; [|exists []; now rewrite app_nil_r].
  destruct (insert_or_ignore_achievement _ _ _ _ _ _);
    [|exists []; now rewrite app_nil_r].
  eexists. reflexivity.
Qed.

Lemma fold_award_trace now wardID table s :
  exists l,
    hub_broadcast (fold_left (fun acc ach => award now wardID ach acc) table s)
    = (hub_broadcast s ++ l)%list.
Proof.
  revert s. induction table as [|ach table IH]; intros s; simpl.
  - exists []. now rewrite app_nil_r.
  - destruct (IH (award now wardID ach s)) as [l1 H1].
    destruct (award_trace now wardID ach s) as [l2 H2].
    exists (l2 ++ l1)%list. now rewrite H1, H2, app_assoc.
Qed.

(** An achievement the ward already holds is broadcast again: the insert
    is ignored without an error, and [err == nil] is all the loop asks. *)
Lemma checkAndAwardAchievements_existing now wardID s w :
  select_ward wardID (db s) = Some w ->
  100 <= Ward_Points w ->
  has_achievement wardID "first_100" (db s) = true ->
  exists rest,
    hub_broadcast (checkAndAwardAchievements now wardID s)
    = (hub_broadcast s
         ++ achievement (Ward_Name w) "First 100 Points!"
              (Ward_Name w ++ " earned: First 100 Points!")%string
         :: rest)%list.
Proof.
  intros Hw Hp Hhas. unfold checkAndAwardAchievements. rewrite Hw.
  unfold achievement_table. apply Z.leb_le in Hp. rewrite Hp.
  cbn [fold_left]. unfold award at 4.
  rewrite (insert_or_ignore_present _ _ _ _ _ _ Hhas).
  repeat match goal with
  | |- context [hub_broadcast (award ?n ?wd ?a ?s0)] =>
      destruct (award_trace n wd a s0) as [? ->]
  end.
  unfold broadcastAchievement. cbn [db with_db].
  rewrite Hw. cbn [hub_broadcast broadcastUpdate with_db].
  rewrite <- !app_assoc. eexists. reflexivity.
Qed.

(** C4, at the failing input.  For the seeded ward 4 (847 verified points,
    [first_500] among its seeded achievements) two evaluations in a row:
    the rows are right (the first call adds [first_100] only, the second
    adds nothing, and no pair (ward, type) occurs twice), but the first
    call broadcasts [first_500] although the ward already held it, and the
    second call broadcasts both achievements once more. *)
Theorem checkAndAwardAchievements_twice :
  let s1 := checkAndAwardAchievements 1 4 demo_server in
  let s2 := checkAndAwardAchievements 2 4 s1 in
  has_achievement 4 "first_500" (db demo_server) = true /\
  List.map Ach_Type (achievements (db s1))
    = (List.map Ach_Type (achievements (db demo_server)) ++ ["first_100"])%list /\
  db s2 = db s1 /\
  NoDup (achievement_keys (db s2)) /\
  hub_broadcast s1
    = [ achievement "Moroni 1st Ward" "First 100 Points!"
          "Moroni 1st Ward earned: First 100 Points!";
        achievement "Moroni 1st Ward" "First to 500!"
          "Moroni 1st Ward earned: First to 500!" ] /\
  hub_broadcast s2 = (hub_broadcast s1 ++ hub_broadcast s1)%list.
Proof.
  cbv zeta. repeat apply conj; try (vm_compute; reflexivity).
  apply NoDup_ListNoDup. apply (bool_decide_unpack _). vm_compute. reflexivity.
Qed.

End Evaluator.

(* ===================================================================== *)
(** * The hub: broadcast with a full client *)
(* ===================================================================== *)

Module HubFacts.
Import HubModel.
#[local] Set Warnings "-clear-no-such-hyp".
Section Broadcast.

Context {Message : Type}.
Implicit Types (h : Hub Message) (c : ClientRef) (m : Message).

(** One turn of the inner [select] for a registered client. *)
Lemma offer_registered m c h :
  hub_wf h -> c ∈ clients h ->
  exists cl,
    heap h !! c = Some cl /\
    offer m c h
    = Some {| clients := if full (send cl) then clients h ∖ {[c]} else clients h;
              heap := <[c := offered m cl]> (heap h) |}.
Proof.
  intros Hwf Hc. destruct (Hwf c Hc) as (cl & Hcl & Hopen).
  exists cl. split; [done|].
  unfold offer, offered, close. rewrite Hcl, Hopen.
  by destruct (full (send cl)).
Qed.

Lemma offer_wf m c h h' :
  hub_wf h -> c ∈ clients h -> offer m c h = Some h' -> hub_wf h'.
Proof.
  intros Hwf Hc Ho.
  destruct (offer_registered m c h Hwf Hc) as (cl & Hcl & Heq).
  rewrite Heq in Ho. injection Ho as <-.
  destruct (Hwf c Hc) as (cl' & Hcl' & Hopen).
  assert (cl' = cl) as -> by congruence.
  intros c' Hc'. simpl in *.
  destruct (decide (c' = c)) as [->|Hne].
  - rewrite lookup_insert_eq. eexists. split; [done|].
    unfold offered. destruct (full (send cl)) eqn:Hf; [set_solver|done].
  - rewrite lookup_insert_ne by done. apply Hwf.
    destruct (full (send cl)); set_solver.
Qed.

(** The whole loop, for any order that visits registered clients once. *)
Lemma broadcast_loop_spec m order h :
  base.NoDup order -> (forall c, c ∈ order -> c ∈ clients h) -> hub_wf h ->
  exists h',
    broadcast_loop m order h = Some h' /\
    hub_wf h' /\
    (forall c, c ∈ clients h' <->
               c ∈ clients h /\
               ~ (c ∈ order /\
                  exists cl, heap h !! c = Some cl /\ full (send cl) = true)) /\
    (forall c, heap h' !! c
               = if decide (c ∈ order) then offered m <$> heap h !! c
                 else heap h !! c).
Proof.
  intros Hnd. revert h.
  induction order as [|c rest IH]; intros h Hin Hwf; simpl.
  - exists h. split; [done|]. split; [done|]. split.
    + intros c. set_solver.
    + done.
  - apply list.NoDup_cons in Hnd as [Hnotin Hnd].
    assert (c ∈ clients h) as Hc by (apply Hin; set_solver).
    destruct (offer_registered m c h Hwf Hc) as (cl & Hcl & Heq).
    pose proof (offer_wf m c h _ Hwf Hc Heq) as Hwf1.
    rewrite Heq.
    set (h1 := {| clients := if full (send cl) then clients h ∖ {[c]}
                             else clients h;
                  heap := <[c := offered m cl]> (heap h) |}) in *.
    destruct (IH Hnd h1) as (h' & Hloop & Hwf' & Hcl' & Hheap'); [|done|].
    { intros c' Hc'. assert (c' ≠ c) by (intros ->; done).
      assert (c' ∈ clients h) by (apply Hin; set_solver).
      subst h1. simpl. destruct (full (send cl)); set_solver. }
    exists h'. split; [done|]. split; [done|]. split.
    + intros c'. rewrite Hcl'. subst h1. simpl.
      destruct (decide (c' = c)) as [->|Hne].
      * rewrite lookup_insert_eq.
        destruct (full (send cl)) eqn:Hf.
        -- split; [set_solver|]. intros [_ Hno]. exfalso. apply Hno.
           split; [set_solver|]. eauto.
        -- split.
           ++ intros [Hc1 _]. split; [done|]. intros [_ (cl2 & Hcl2 & Hf2)].
              congruence.
           ++ intros [Hc1 _]. split; [done|]. intros [Hr _]. done.
      * rewrite lookup_insert_ne by done.
        assert (c' ∈ (if full (send cl) then clients h ∖ {[c]} else clients h)
                <-> c' ∈ clients h) as ->
          by (destruct (full (send cl)); set_solver).
        set_solver.
    + intros c'. rewrite Hheap'. subst h1. simpl.
      destruct (decide (c' = c)) as [->|Hne].
      * rewrite decide_False by done. rewrite decide_True by set_solver.
        rewrite lookup_insert_eq, Hcl. done.
      * rewrite lookup_insert_ne by done.
        destruct (decide (c' ∈ rest)).
        -- by rewrite decide_True by set_solver.
        -- by rewrite decide_False by set_solver.
Qed.

(** The hypothesis of the statements on broadcast holds along every run
    of the hub: it holds of the empty hub and each step keeps it, a client
    being registered right after [handleWebSocket] has made it. *)
Lemma new_hub_wf : hub_wf (new_hub Message).
Proof. intros c Hc. set_solver. Qed.

Lemma connect_wf order c h h1 h2 :
  hub_wf h -> new_client c h = Some h1 -> run order (register c) h1 = Some h2 ->
  hub_wf h2.
Proof.
  unfold new_client. intros Hwf Hnew Hrun.
  destruct (heap h !! c) eqn:Hc; [done|].
  injection Hnew as <-. injection Hrun as <-.
  intros c' Hc'. simpl in *. destruct (decide (c' = c)) as [->|Hne].
  - rewrite lookup_insert_eq. eauto.
  - rewrite lookup_insert_ne by done. apply Hwf. set_solver.
Qed.

Lemma unregister_wf order c h h' :
  hub_wf h -> run order (unregister c) h = Some h' -> hub_wf h'.
Proof.
  simpl. intros Hwf Hrun. destruct (decide (c ∈ clients h)) as [Hc|Hc].
  - destruct (heap h !! c) as [cl|]; [|done].
    destruct (close (send cl)) as [ch|]; [|done].
    injection Hrun as <-. intros c' Hc'. simpl in *.
    rewrite lookup_insert_ne by set_solver. apply Hwf. set_solver.
  - by injection Hrun as <-.
Qed.

Lemma unregister_total order c h :
  hub_wf h -> exists h', run order (unregister c) h = Some h'.
Proof.
  simpl. intros Hwf. destruct (decide (c ∈ clients h)) as [Hc|Hc]; [|eauto].
  destruct (Hwf c Hc) as (cl & -> & Hopen). unfold close. rewrite Hopen. eauto.
Qed.

Lemma broadcast_wf m order h h' :
  hub_wf h -> order ≡ₚ elements (clients h) ->
  run order (broadcast m) h = Some h' -> hub_wf h'.
Proof.
  intros Hwf Hperm Hrun. simpl in Hrun.
  assert (base.NoDup order) as Hnd by (rewrite Hperm; apply NoDup_elements).
  destruct (broadcast_loop_spec m order h Hnd) as (h2 & Hloop & Hwf2 & _);
    [intros c; rewrite Hperm; apply elem_of_elements | done |].
  rewrite Hloop in Hrun. by injection Hrun as <-.
Qed.

(** C5.  A broadcast on a hub whose registered clients have open channels
    does not block or panic, in whatever order the clients are visited.
    A registered client whose [send] queue is full at that moment is
    removed from the set of clients (and its channel closed); every other
    registered client stays registered and has the message appended to
    its queue. *)
Theorem broadcast_drops_full_only m order h :
  hub_wf h ->
  order ≡ₚ elements (clients h) ->
  exists h',
    run order (broadcast m) h = Some h' /\
    forall c, c ∈ clients h ->
      exists cl,
        heap h !! c = Some cl /\
        (if full (send cl)
         then (c ∉ clients h') /\
              (exists cl', heap h' !! c = Some cl' /\ closed (send cl') = true)
         else c ∈ clients h' /\
              heap h' !! c = Some {| send := enqueue m (send cl) |}).
Proof.
  intros Hwf Hperm. simpl.
  assert (base.NoDup order) as Hnd by (rewrite Hperm; apply NoDup_elements).
  assert (forall c, c ∈ order <-> c ∈ clients h) as Hin
    by (intros c; rewrite Hperm; apply elem_of_elements).
  destruct (broadcast_loop_spec m order h Hnd) as (h' & Hloop & _ & Hcl & Hheap);
    [intros c; apply Hin | done |].
  exists h'. split; [done|]. intros c Hc.
  destruct (Hwf c Hc) as (cl & Hlk & Hopen). exists cl. split; [done|].
  specialize (Hheap c). rewrite decide_True in Hheap by (by apply Hin).
  rewrite Hlk in Hheap. simpl in Hheap. unfold offered in Hheap.
  destruct (full (send cl)) eqn:Hf.
  - split.
    + rewrite Hcl. intros [_ Hno]. apply Hno. split; [by apply Hin|]. eauto.
    + eexists. split; [done|]. done.
  - split; [|done]. rewrite Hcl. split; [done|].
    intros [_ (cl2 & Hcl2 & Hf2)]. congruence.
Qed.

End Broadcast.
End HubFacts.

(* ===================================================================== *)
(** * The leaderboard: progress *)
(* ===================================================================== *)

Section Leaderboard.

#[local] Open Scope Q_scope.






End Leaderboard.

(* ===================================================================== *)
(** * The statements at work on the seeded server *)
(* ===================================================================== *)

Section Examples.








(** Submission 1 is approved already: NotFound.  User 5 does not exist:
    Forbidden.  The admin approves submission 8 and asks again: NotFound,
    and the state is the one the first call left. *)
Lemma handleApprovePoints_refusals_witness :
  handleApprovePoints 9 (admin_request "1") demo_server
    = (demo_server,
       http_Error "Submission not found or already processed" StatusNotFound) /\
  handleApprovePoints 9 (stranger_request "8") demo_server
    = (demo_server,
       http_Error "Not authorized to approve for this ward" StatusForbidden) /\
  handleApprovePoints 10 (admin_request "8")
    (fst (handleApprovePoints 9 (admin_request "8") demo_server))
    = (fst (handleApprovePoints 9 (admin_request "8") demo_server),
       http_Error "Submission not found or already processed" StatusNotFound).
Proof.
  split; [|split].
  - destruct (handleApprovePoints_refusals 9 10 (admin_request "1")
                demo_server 1) as (H & _ & _).
    + vm_compute. discriminate.
    + vm_compute. reflexivity.
    + apply H. apply select_pending_none. vm_compute. reflexivity.
  - destruct (handleApprovePoints_refusals 9 10 (stranger_request "8")
                demo_server 8) as (_ & H & _).
    + vm_compute. discriminate.
    + vm_compute. reflexivity.
    + apply (H demo_submission).
      * vm_compute. reflexivity.
      * vm_compute. reflexivity.
  - destruct (handleApprovePoints_refusals 9 10 (admin_request "8")
                demo_server 8) as (_ & _ & H).
    + vm_compute. discriminate.
    + vm_compute. reflexivity.
    + apply (H _ None "Points approved successfully!").
      vm_compute. reflexivity.
Defined.

Lemma handleSubmitPoints_invalid_witness :
  handleSubmitPoints 9 (Some (demo_body 4 0)) demo_server
  = (demo_server, http_Error "Missing required fields" StatusBadRequest).
Proof.
  apply (handleSubmitPoints_invalid 9 (demo_body 4 0) demo_server).
  left. simpl. lia.
Defined.

(** C8 does not hold as stated: for ward 99, which does not exist,
    a Submit with a name and positive points is not answered as a
    validation failure (400) but with 500, "Failed to submit points". *)
Lemma handleSubmitPoints_unknown_ward_not_validation :
  ward_exists (db demo_server) 99 = false /\
  handleSubmitPoints 9 (Some (demo_body 99 5)) demo_server
    = (demo_server,
       http_Error "Failed to submit points" StatusInternalServerError) /\
  ~ (exists msg,
       snd (handleSubmitPoints 9 (Some (demo_body 99 5)) demo_server)
       = http_Error msg StatusBadRequest).
Proof.
  split; [vm_compute; reflexivity|].
  split; [vm_compute; reflexivity|].
  intros [msg H]. vm_compute in H. discriminate.
Qed.

Lemma handleSubmitPoints_unknown_ward_witness :
  exists msg code,
    handleSubmitPoints 9 (Some (demo_body 99 5)) demo_server
      = (demo_server, http_Error msg code) /\
    (code = StatusBadRequest \/ code = StatusInternalServerError) /\
    (99 <> 0 -> "A" <> "" -> 0 < 5 ->
     msg = "Failed to submit points" /\ code = StatusInternalServerError) /\
    (99 = 0 -> code = StatusBadRequest).
Proof.
  apply (handleSubmitPoints_unknown_ward 9 (demo_body 99 5) demo_server).
  vm_compute. reflexivity.
Defined.

Lemma getUserIDFromSession_cookie_only_witness :
  getUserIDFromSession {| cookie_session := Some "42"; vars_id := "8" |} = 42 /\
  getUserIDFromSession {| cookie_session := None; vars_id := "8" |} = 0 /\
  getUserIDFromSession {| cookie_session := Some "4x2"; vars_id := "8" |} = 0.
Proof.
  split; [|split].
  - destruct (getUserIDFromSession_cookie_only
                {| cookie_session := Some "42"; vars_id := "" |}
                {| cookie_session := Some "42"; vars_id := "8" |})
      as (_ & H & _); [reflexivity|].
    apply H; vm_compute; reflexivity.
  - destruct (getUserIDFromSession_cookie_only
                {| cookie_session := None; vars_id := "" |}
                {| cookie_session := None; vars_id := "8" |})
      as (_ & _ & _ & H & _); [reflexivity|].
    apply H. reflexivity.
  - destruct (getUserIDFromSession_cookie_only
                {| cookie_session := Some "4x2"; vars_id := "" |}
                {| cookie_session := Some "4x2"; vars_id := "8" |})
      as (_ & _ & _ & _ & H); [reflexivity|].
    apply (H "4x2"); vm_compute; reflexivity.
Defined.

End Examples.

Module HubExamples.
Import HubModel HubFacts.
#[local] Set Warnings "-clear-no-such-hyp".

Lemma demo_hub_wf : hub_wf demo_hub.
Proof.
  intros c Hc. unfold demo_hub in Hc. simpl in Hc.
  apply elem_of_union in Hc as [Hc|Hc]; apply elem_of_singleton in Hc as ->;
    eexists; (split; [vm_compute; reflexivity | reflexivity]).
Qed.

(** Message 5 broadcast to the two clients: client 1, whose queue is full,
    is no longer registered and its channel is closed; client 2 is still
    registered and has the message in its queue. *)
Lemma broadcast_drops_full_only_witness :
  exists h',
    run (elements (clients demo_hub)) (broadcast 5%nat) demo_hub = Some h' /\
    (1%positive ∉ clients h') /\
    (exists cl', heap h' !! 1%positive = Some cl' /\ closed (send cl') = true) /\
    2%positive ∈ clients h' /\
    heap h' !! 2%positive
      = Some {| send := {| queue := [5%nat]; capacity := 1; closed := false |} |}.
Proof.
  destruct (broadcast_drops_full_only 5%nat (elements (clients demo_hub))
              demo_hub demo_hub_wf) as (h' & Hrun & Hall); [reflexivity|].
  exists h'. split; [exact Hrun|].
  destruct (Hall 1%positive) as (cl1 & Hcl1 & H1);
    [unfold demo_hub; simpl; set_solver|].
  destruct (Hall 2%positive) as (cl2 & Hcl2 & H2);
    [unfold demo_hub; simpl; set_solver|].
  vm_compute in Hcl1. injection Hcl1 as <-.
  vm_compute in Hcl2. injection Hcl2 as <-.
  simpl in H1, H2. destruct H1 as [H1a H1b], H2 as [H2a H2b].
  repeat split; assumption.
Defined.

End HubExamples.

Section LeaderboardExample.


Example progress_847 : (progress 847 == 652 # 10)%Q.
Proof. vm_compute. reflexivity. Qed.

End LeaderboardExample.

(* ===================================================================== *)
(** * Further properties of the ledger handlers *)
(* ===================================================================== *)

Section HandlerEffects.

(** X1.  A request that is answered with an error has changed nothing:
    every [http.Error] of Submit, Approve and Reject is written before the
    first statement that modifies the database or reaches the hub. *)
Theorem exec_error_no_effect now op s s' msg code :
  exec now op s = (s', http_Error msg code) -> s' = s.
Proof.
  destruct op as [body|r|r]; simpl.
  - unfold handleSubmitPoints.
    destruct body as [b|]; [|congruence].
    destruct (_ || _); [congruence|].
    destruct (insert_point_submission _ _ _ _ _ _ _ _) as [[id d1]|];
      [discriminate|congruence].
  - unfold handleApprovePoints.
    destruct (getUserIDFromSession r =? 0); [congruence|].
    destruct (Atoi (vars_id r)); [|congruence].
    destruct (select_pending _ _); [|congruence].
    destruct (negb _); [congruence|].
    destruct (update_submission_status _ _ _ _ _); [discriminate|congruence].
  - unfold handleRejectPoints.
    destruct (getUserIDFromSession r =? 0); [congruence|].
    destruct (Atoi (vars_id r)); [|congruence].
    destruct (select_pending _ _); [|congruence].
    destruct (negb _); [congruence|].
    destruct (update_submission_status _ _ _ _ _); [discriminate|congruence].
Qed.

Lemma exec_error_no_effect_witness :
  fst (exec 9 (Approve (stranger_request "8")) demo_server) = demo_server.
Proof.
  apply (exec_error_no_effect 9 (Approve (stranger_request "8")) demo_server
           _ "Not authorized to approve for this ward" StatusForbidden).
  vm_compute. reflexivity.
Defined.

End HandlerEffects.

Section TableFrames.

Lemma same_ward_id : same_ward (fun w => w).
Proof. intros w. auto. Qed.

Lemma same_ward_guard f k :
  same_ward f -> same_ward (fun w => if Ward_ID w =? k then f w else w).
Proof.
  intros Hf w. destruct (Ward_ID w =? k); [apply Hf | auto].
Qed.

Lemma map_id {A : Type} (l : list A) : List.map (fun x => x) l = l.
Proof. induction l; simpl; congruence. Qed.

(** Every handler leaves the users alone and maps the wards row by row,
    touching the two totals only. *)
Lemma exec_tables now op s :
  users (db (fst (exec now op s))) = users (db s) /\
  exists f, same_ward f /\
            wards (db (fst (exec now op s))) = List.map f (wards (db s)).
Proof.
  assert (Hsame : users (db s) = users (db s) /\
                  exists f, same_ward f /\ wards (db s) = List.map f (wards (db s))).
  { split; [reflexivity|]. exists (fun w => w). split; [apply same_ward_id|].
    now rewrite map_id. }
  destruct op as [body|r|r]; simpl.
  - unfold handleSubmitPoints.
    destruct body as [b|]; [|exact Hsame].
    destruct (_ || _); [exact Hsame|].
    unfold insert_point_submission.
    destruct (ward_exists (db s) (body_WardID b)); [|exact Hsame].
    cbv zeta. unfold broadcastLeaderboardUpdate, broadcastUpdate. cbn [fst db].
    match goal with
    | |- context [logActivity ?n ?w ?u ?a ?dt ?p ?s1] =>
        destruct (logActivity_frame n w u a dt p s1) as (F1 & F2 & F3 & F4 & F5)
    end.
    cbv zeta in *. rewrite F1, F2. cbn. split; [reflexivity|].
    eexists. split; [|reflexivity].
    apply same_ward_guard. intros w. cbn. auto.
  - unfold handleApprovePoints.
    destruct (getUserIDFromSession r =? 0); [exact Hsame|].
    destruct (Atoi (vars_id r)) as [submissionID|]; [|exact Hsame].
    destruct (select_pending submissionID (db s)) as [sub|]; [|exact Hsame].
    destruct (negb _); [exact Hsame|].
    unfold update_submission_status.
    destruct (_ && _); [exact Hsame|].
    cbv zeta. unfold broadcastLeaderboardUpdate, broadcastUpdate. cbn [fst db].
    match goal with
    | |- context [logActivity ?n ?wd ?u ?a ?dt ?p ?s2] =>
        destruct (logActivity_frame n wd u a dt p s2) as (F1 & F2 & F3 & F4 & F5);
        match s2 with
        | checkAndAwardAchievements ?n' ?w' ?s1 =>
            destruct (checkAndAwardAchievements_frame n' w' s1)
              as (G1 & G2 & G3 & G4)
        end
    end.
    cbv zeta in *. rewrite F1, F2, G1, G2. cbn. split; [reflexivity|].
    eexists. split; [|reflexivity].
    apply same_ward_guard. intros w. cbn. auto.
  - unfold handleRejectPoints.
    destruct (getUserIDFromSession r =? 0); [exact Hsame|].
    destruct (Atoi (vars_id r)) as [submissionID|]; [|exact Hsame].
    destruct (select_pending submissionID (db s)) as [sub|]; [|exact Hsame].
    destruct (negb _); [exact Hsame|].
    unfold update_submission_status.
    destruct (_ && _); [exact Hsame|].
    cbn. split; [reflexivity|].
    eexists. split; [|reflexivity].
    apply same_ward_guard. intros w. cbn. auto.
Qed.

Lemma ward_exists_map f d d' k :
  same_ward f -> wards d' = List.map f (wards d) ->
  ward_exists d' k = ward_exists d k.
Proof.
  intros Hf Hw. unfold ward_exists. rewrite Hw. clear Hw.
  induction (wards d) as [|w l IH]; simpl; [reflexivity|].
  destruct (Hf w) as (-> & _). now rewrite IH.
Qed.

Lemma user_fk_ext d d' u :
  users d' = users d -> user_fk d' u = user_fk d u.
Proof. intros H. destruct u; simpl; [|reflexivity]. unfold user_exists. now rewrite H. Qed.

End TableFrames.

(* ===================================================================== *)
(** * Referential integrity *)
(* ===================================================================== *)

Section ForeignKeys.

(** A database whose wards and users are those of [d] up to the totals,
    and whose other rows are rows of [d] or rows that satisfy the foreign
    keys in [d]. *)
Lemma foreign_keys_intro d d' f :
  same_ward f -> wards d' = List.map f (wards d) -> users d' = users d ->
  foreign_keys_hold d ->
  (forall p, In p (point_submissions d') ->
     In p (point_submissions d) \/
     (ward_exists d (Sub_WardID p) = true /\ user_fk d (Sub_ApprovedBy p) = true)) ->
  (forall a, In a (achievements d') ->
     In a (achievements d) \/ ward_exists d (Ach_WardID a) = true) ->
  (forall l, In l (activity_logs d') ->
     In l (activity_logs d) \/
     (ward_exists d (Log_WardID l) = true /\ user_fk d (Log_UserID l) = true)) ->
  foreign_keys_hold d'.
Proof.
  intros Hf Hw Hu (Kp & Ka & Kl & Ku) Hp Ha Hl.
  assert (We : forall k, ward_exists d' k = ward_exists d k)
    by (intros k; eapply ward_exists_map; eauto).
  assert (Ue : forall u, user_fk d' u = user_fk d u)
    by (intros u; now apply user_fk_ext).
  repeat split.
  - rewrite We. destruct (Hp p H) as [Hin|[H1 _]]; [apply Kp, Hin | exact H1].
  - rewrite Ue. destruct (Hp p H) as [Hin|[_ H2]]; [apply Kp, Hin | exact H2].
  - intros a Hin. rewrite We. destruct (Ha a Hin) as [Hin'|H1]; auto.
  - rewrite We. destruct (Hl l H) as [Hin|[H1 _]]; [apply Kl, Hin | exact H1].
  - rewrite Ue. destruct (Hl l H) as [Hin|[_ H2]]; [apply Kl, Hin | exact H2].
  - intros u Hin. rewrite Hu in Hin. specialize (Ku u Hin).
    destruct (User_WardID u); [now rewrite We | exact I].
Qed.

Lemma fk_insert_point_submission now wardID name points note st at' d id d1 :
  insert_point_submission now wardID name points note st at' d = Some (id, d1) ->
  foreign_keys_hold d -> foreign_keys_hold d1.
Proof.
  unfold insert_point_submission.
  destruct (ward_exists d wardID) eqn:Hw; [|discriminate].
  intros [= <- <-] Hfk.
  apply (foreign_keys_intro d _ (fun w => w)); auto using same_ward_id.
  - simpl. now rewrite map_id.
  - simpl. intros p Hin. apply in_app_or in Hin as [Hin|[<-|[]]]; auto.
Qed.

Lemma fk_update_submission_status st userID now submissionID d d1 :
  update_submission_status st userID now submissionID d = Some d1 ->
  foreign_keys_hold d -> foreign_keys_hold d1.
Proof.
  unfold update_submission_status.
  destruct (existsb _ _ && negb _) eqn:Hc; [discriminate|].
  intros [= <-] Hfk.
  apply (foreign_keys_intro d _ (fun w => w)); auto using same_ward_id.
  - simpl. now rewrite map_id.
  - simpl. intros p' Hin. apply in_map_iff in Hin as (p & <- & Hin).
    destruct (Sub_ID p =? submissionID) eqn:He; [|now left].
    right. destruct Hfk as (Kp & _). destruct (Kp p Hin) as [Hw _].
    split; [exact Hw|]. simpl.
    apply Bool.andb_false_iff in Hc as [Hc|Hc].
    + exfalso. apply Bool.not_true_iff_false in Hc. apply Hc.
      apply existsb_exists. eauto.
    + now apply Bool.negb_false_iff in Hc.
Qed.

Lemma fk_update_ward f wardID d :
  same_ward f -> foreign_keys_hold d -> foreign_keys_hold (update_ward f wardID d).
Proof.
  intros Hf Hfk.
  apply (foreign_keys_intro d _ (fun w => if Ward_ID w =? wardID then f w else w));
    auto using same_ward_guard.
Qed.

Lemma fk_insert_or_ignore_achievement now wardID aType title icon d d1 :
  insert_or_ignore_achievement now wardID aType title icon d = Some d1 ->
  foreign_keys_hold d -> foreign_keys_hold d1.
Proof.
  unfold insert_or_ignore_achievement.
  destruct (has_achievement wardID aType d); [now intros [= <-]|].
  destruct (ward_exists d wardID) eqn:Hw; [|discriminate]. simpl.
  intros [= <-] Hfk.
  apply (foreign_keys_intro d _ (fun w => w)); auto using same_ward_id.
  - simpl. now rewrite map_id.
  - simpl. intros a Hin. apply in_app_or in Hin as [Hin|[<-|[]]]; auto.
Qed.

Lemma fk_insert_activity_log now wardID userID action details points d d1 :
  insert_activity_log now wardID userID action details points d = Some d1 ->
  foreign_keys_hold d -> foreign_keys_hold d1.
Proof.
  unfold insert_activity_log.
  destruct (ward_exists d wardID && user_fk d userID) eqn:Hc; [|discriminate].
  apply andb_prop in Hc as [Hw Hu].
  intros [= <-] Hfk.
  apply (foreign_keys_intro d _ (fun w => w)); auto using same_ward_id.
  - simpl. now rewrite map_id.
  - simpl. intros l Hin. apply in_app_or in Hin as [Hin|[<-|[]]]; auto.
Qed.

Lemma fk_logActivity now wardID userID action details points s :
  foreign_keys_hold (db s) ->
  foreign_keys_hold (db (logActivity now wardID userID action details points s)).
Proof.
  intros Hfk. unfold logActivity.
  destruct (insert_activity_log _ _ _ _ _ _ _) as [d1|] eqn:Hi; [|exact Hfk].
  simpl. eapply fk_insert_activity_log; eauto.
Qed.

Lemma fk_award now wardID ach s :
  foreign_keys_hold (db s) -> foreign_keys_hold (db (award now wardID ach s)).
Proof.
  intros Hfk. destruct ach as [[[condition aType] title] icon]. unfold award.
  destruct condition; [|exact Hfk].
  destruct (insert_or_ignore_achievement _ _ _ _ _ _) as [d1|] eqn:Hi;
    [|exact Hfk].
  simpl. eapply fk_insert_or_ignore_achievement; eauto.
Qed.

Lemma fk_checkAndAwardAchievements now wardID s :
  foreign_keys_hold (db s) ->
  foreign_keys_hold (db (checkAndAwardAchievements now wardID s)).
Proof.
  unfold checkAndAwardAchievements.
  generalize (achievement_table
                match select_ward wardID (db s) with
                | Some w => Ward_Points w
                | None => 0
                end).
  intros table. revert s. induction table as [|ach table IH]; intros s Hfk;
    simpl; [exact Hfk|].
  apply IH. now apply fk_award.
Qed.

Lemma exec_foreign_keys now op s :
  foreign_keys_hold (db s) -> foreign_keys_hold (db (fst (exec now op s))).
Proof.
  intros Hfk. destruct op as [body|r|r]; simpl.
  - unfold handleSubmitPoints.
    destruct body as [b|]; [|exact Hfk].
    destruct (_ || _); [exact Hfk|].
    destruct (insert_point_submission _ _ _ _ _ _ _ _) as [[id d1]|] eqn:Hi;
      [|exact Hfk].
    cbv zeta. unfold broadcastLeaderboardUpdate, broadcastUpdate. cbn [fst db].
    apply fk_logActivity. cbn [db with_db].
    apply fk_update_ward; [intros w; cbn; auto|].
    eapply fk_insert_point_submission; eauto.
  - unfold handleApprovePoints.
    destruct (getUserIDFromSession r =? 0); [exact Hfk|].
    destruct (Atoi (vars_id r)) as [submissionID|]; [|exact Hfk].
    destruct (select_pending submissionID (db s)) as [sub|]; [|exact Hfk].
    destruct (negb _); [exact Hfk|].
    destruct (update_submission_status _ _ _ _ _) as [d1|] eqn:Hu; [|exact Hfk].
    cbv zeta. unfold broadcastLeaderboardUpdate, broadcastUpdate. cbn [fst db].
    apply fk_logActivity, fk_checkAndAwardAchievements. cbn [db with_db].
    apply fk_update_ward; [intros w; cbn; auto|].
    eapply fk_update_submission_status; eauto.
  - unfold handleRejectPoints.
    destruct (getUserIDFromSession r =? 0); [exact Hfk|].
    destruct (Atoi (vars_id r)) as [submissionID|]; [|exact Hfk].
    destruct (select_pending submissionID (db s)) as [sub|]; [|exact Hfk].
    destruct (negb _); [exact Hfk|].
    destruct (update_submission_status _ _ _ _ _) as [d1|] eqn:Hu; [|exact Hfk].
    cbv zeta. unfold broadcastLeaderboardUpdate, broadcastUpdate. cbn [fst db with_db].
    apply fk_update_ward; [intros w; cbn; auto|].
    eapply fk_update_submission_status; eauto.
Qed.

Lemma NewServer_foreign_keys now s :
  NewServer now = Some s -> foreign_keys_hold (db s).
Proof.
  intros H. vm_compute in H. injection H as <-.
  split; [|split; [|split]]; intros x Hin; simpl in Hin;
    repeat (destruct Hin as [<-|Hin];
            [first [exact I | reflexivity | split; reflexivity]|]);
    destruct Hin.
Qed.

(** X2.  Referential integrity along every run from a fresh database:
    every submission belongs to a ward that exists and, once decided,
    names an approver that exists; every achievement and every activity
    log entry belongs to an existing ward (and user, when it names one). *)
Theorem reachable_foreign_keys s :
  reachable s -> foreign_keys_hold (db s).
Proof.
  induction 1 as [now s Hinit | now op s _ IH].
  - eapply NewServer_foreign_keys; eauto.
  - now apply exec_foreign_keys.
Qed.

Lemma reachable_foreign_keys_witness :
  foreign_keys_hold
    (db (fst (exec 9 (Approve (admin_request "8")) demo_server))).
Proof.
  apply (reachable_foreign_keys
           (fst (exec 9 (Approve (admin_request "8")) demo_server))).
  apply reachable_step. apply (reachable_init 0). vm_compute. reflexivity.
Defined.

End ForeignKeys.

(* ===================================================================== *)
(** * Positive points, fixed wards and users *)
(* ===================================================================== *)

Section Positivity.






End Positivity.

Section FixedTables.

Lemma map_ward_key f l :
  same_ward f -> List.map ward_key (List.map f l) = List.map ward_key l.
Proof.
  intros Hf. rewrite List.map_map. apply List.map_ext. intros w.
  unfold ward_key. destruct (Hf w) as (-> & -> & ->). reflexivity.
Qed.

Lemma exec_all_tables requests s :
  List.map ward_key (wards (db (exec_all requests s)))
    = List.map ward_key (wards (db s)) /\
  users (db (exec_all requests s)) = users (db s).
Proof.
  revert s. induction requests as [|[now op] rest IH]; intros s; simpl; [auto|].
  destruct (IH (fst (exec now op s))) as [Hw Hu].
  destruct (exec_tables now op s) as (Hu' & f & Hf & Hw').
  rewrite Hw, Hu, Hu', Hw'. split; [now apply map_ward_key | reflexivity].
Qed.

(** X4.  No sequence of Submit, Approve and Reject requests creates,
    deletes or renames a ward or touches a user: the wards keep their ids,
    names and creation times in table order, and the table of users is
    the same.  So when the server is started again on a database that has
    wards, [seedData] finds them and leaves the database as it is. *)
Theorem exec_all_keeps_wards_and_users requests s now :
  wards (db s) <> [] ->
  List.map ward_key (wards (db (exec_all requests s)))
    = List.map ward_key (wards (db s)) /\
  users (db (exec_all requests s)) = users (db s) /\
  seedData now (db (exec_all requests s)) = Some (db (exec_all requests s)).
Proof.
  intros Hne. destruct (exec_all_tables requests s) as [Hw Hu].
  repeat split; auto.
  unfold seedData.
  destruct (wards (db (exec_all requests s))) as [|w l] eqn:E.
  - destruct (wards (db s)); [congruence | discriminate].
  - reflexivity.
Qed.

Lemma exec_all_keeps_wards_and_users_witness :
  List.map ward_key (wards (db (exec_all demo_requests demo_server)))
    = List.map ward_key (wards (db demo_server)) /\
  users (db (exec_all demo_requests demo_server)) = users (db demo_server) /\
  seedData 99 (db (exec_all demo_requests demo_server))
    = Some (db (exec_all demo_requests demo_server)).
Proof.
  apply (exec_all_keeps_wards_and_users demo_requests demo_server 99).
  vm_compute. discriminate.
Defined.

End FixedTables.

(* ===================================================================== *)
(** * Submit: what an accepted request does *)
(* ===================================================================== *)

Section SubmitAccepted.

(** The path of [handleSubmitPoints] past its checks. *)
Lemma handleSubmitPoints_valid now b s :
  body_WardID b <> 0 -> body_SubmitterName b <> "" -> 0 < body_Points b ->
  ward_exists (db s) (body_WardID b) = true ->
  handleSubmitPoints now (Some b) s =
  (let id := next_rowid Sub_ID (point_submissions (db s)) in
   let d1 :=
     set_point_submissions
       (point_submissions (db s) ++ [submitted_row now id b]) (db s) in
   let s1 := with_db (recompute_pending (body_WardID b) d1) s in
   let s2 :=
     logActivity now (body_WardID b) None "points_submitted"
       (body_SubmitterName b ++ " submitted "
          ++ FormatInt (body_Points b) ++ " points")%string
       (body_Points b) s1 in
   (broadcastLeaderboardUpdate s2,
    json_success (Some id)
      "Points submitted successfully! Waiting for approval.")).
Proof.
  intros Hw Hn Hp He. unfold handleSubmitPoints, insert_point_submission.
  apply Z.eqb_neq in Hw. apply String.eqb_neq in Hn.
  assert (Hp' : (body_Points b <=? 0) = false) by (apply Z.leb_gt; lia).
  rewrite Hw, Hn, Hp', He. reflexivity.
Qed.


Lemma find_app_fresh {A : Type} (f : A -> bool) (l : list A) (x : A) :
  (forall y, In y l -> f y = false) -> f x = true ->
  List.find f (l ++ [x]) = Some x.
Proof.
  intros Hl Hx. induction l as [|y l IH]; simpl.
  - now rewrite Hx.
  - rewrite (Hl y) by now left. apply IH. intros z Hz. apply Hl. now right.
Qed.

Lemma find_app_other {A : Type} (f : A -> bool) (l : list A) (x : A) :
  f x = false -> List.find f (l ++ [x]) = List.find f l.
Proof.
  intros Hx. induction l as [|y l IH]; simpl.
  - now rewrite Hx.
  - destruct (f y); auto.
Qed.

(** X5.  A Submit with a ward that exists, a name and positive points is
    accepted.  The id it answers with is one no submission had before; the
    table of submissions is the old one followed by one new pending row
    holding the submitted ward, name, points and note; that row is what a
    later Approve or Reject of this id will find; and the lookup of every
    other id gives what it gave before. *)
Theorem handleSubmitPoints_accepted now b s :
  body_WardID b <> 0 -> body_SubmitterName b <> "" -> 0 < body_Points b ->
  ward_exists (db s) (body_WardID b) = true ->
  exists s' id,
    handleSubmitPoints now (Some b) s
      = (s', json_success (Some id)
               "Points submitted successfully! Waiting for approval.") /\
    ~ In id (List.map Sub_ID (point_submissions (db s))) /\
    point_submissions (db s')
      = (point_submissions (db s) ++ [submitted_row now id b])%list /\
    select_pending id (db s') = Some (submitted_row now id b) /\
    (forall id', id' <> id ->
                 find_submission id' (db s') = find_submission id' (db s)).
Proof.
  intros Hw Hn Hp He.
  rewrite (handleSubmitPoints_valid now b s Hw Hn Hp He). cbv zeta.
  set (id := next_rowid Sub_ID (point_submissions (db s))).
  assert (Hfresh : ~ In id (List.map Sub_ID (point_submissions (db s))))
    by apply next_rowid_fresh.
  eexists _, id. split; [reflexivity|]. split; [exact Hfresh|].
  unfold broadcastLeaderboardUpdate, broadcastUpdate. cbn [db].
  match goal with
  | |- context [logActivity ?n ?w ?u ?a ?dt ?p ?s1] =>
      destruct (logActivity_frame n w u a dt p s1) as (F1 & F2 & F3 & F4 & F5)
  end.
  cbv zeta in *. unfold select_pending, find_submission. rewrite F3. cbn.
  split; [reflexivity|]. split.
  - apply find_app_fresh.
    + intros y Hy. destruct (Z.eqb_spec (Sub_ID y) id) as [E|E]; [|reflexivity].
      exfalso. apply Hfresh. rewrite <- E. now apply in_map.
    + simpl. now rewrite Z.eqb_refl.
  - intros id' Hne. apply find_app_other. simpl. apply Z.eqb_neq. congruence.
Qed.

Lemma handleSubmitPoints_accepted_witness :
  exists s' id,
    handleSubmitPoints 5 (Some (demo_body 2 30)) demo_server
      = (s', json_success (Some id)
               "Points submitted successfully! Waiting for approval.") /\
    ~ In id (List.map Sub_ID (point_submissions (db demo_server))) /\
    point_submissions (db s')
      = (point_submissions (db demo_server)
           ++ [submitted_row 5 id (demo_body 2 30)])%list /\
    select_pending id (db s') = Some (submitted_row 5 id (demo_body 2 30)) /\
    (forall id', id' <> id ->
                 find_submission id' (db s') = find_submission id' (db demo_server)).
Proof.
  apply (handleSubmitPoints_accepted 5 (demo_body 2 30) demo_server).
  - simpl. lia.
  - simpl. discriminate.
  - simpl. lia.
  - vm_compute. reflexivity.
Defined.



End SubmitAccepted.

(* ===================================================================== *)
(** * Decided submissions stay decided *)
(* ===================================================================== *)

Section Finality.

Lemma exec_ids_unique now op s :
  submission_ids_unique (db s) ->
  submission_ids_unique (db (fst (exec now op s))).
Proof.
  intros Hu. destruct op as [body|r|r]; simpl.
  - unfold handleSubmitPoints.
    destruct body as [b|]; [|exact Hu].
    destruct (_ || _); [exact Hu|].
    destruct (insert_point_submission _ _ _ _ _ _ _ _) as [[id d1]|] eqn:Hi;
      [|exact Hu].
    cbv zeta. unfold broadcastLeaderboardUpdate, broadcastUpdate. cbn [fst db].
    match goal with
    | |- context [logActivity ?n ?w ?u ?a ?dt ?p ?s1] =>
        destruct (logActivity_frame n w u a dt p s1) as (F1 & F2 & F3 & F4 & F5)
    end.
    eapply unique_ext; [exact F3|]. apply (unique_ext d1); [reflexivity|].
    eapply insert_unique; eauto.
  - unfold handleApprovePoints.
    destruct (getUserIDFromSession r =? 0); [exact Hu|].
    destruct (Atoi (vars_id r)) as [submissionID|]; [|exact Hu].
    destruct (select_pending submissionID (db s)) as [sub|]; [|exact Hu].
    destruct (negb _); [exact Hu|].
    destruct (update_submission_status _ _ _ _ _) as [d1|] eqn:Hupd; [|exact Hu].
    cbv zeta. unfold broadcastLeaderboardUpdate, broadcastUpdate. cbn [fst db].
    match goal with
    | |- context [logActivity ?n ?wd ?u ?a ?dt ?p ?s2] =>
        destruct (logActivity_frame n wd u a dt p s2) as (F1 & F2 & F3 & F4 & F5);
        match s2 with
        | checkAndAwardAchievements ?n' ?w' ?s1 =>
            destruct (checkAndAwardAchievements_frame n' w' s1)
              as (G1 & G2 & G3 & G4)
        end
    end.
    cbv zeta in *.
    eapply unique_ext; [exact (eq_trans F3 G3)|].
    apply (unique_ext d1); [reflexivity|].
    eapply update_status_unique; eauto.
  - unfold handleRejectPoints.
    destruct (getUserIDFromSession r =? 0); [exact Hu|].
    destruct (Atoi (vars_id r)) as [submissionID|]; [|exact Hu].
    destruct (select_pending submissionID (db s)) as [sub|]; [|exact Hu].
    destruct (negb _); [exact Hu|].
    destruct (update_submission_status _ _ _ _ _) as [d1|] eqn:Hupd; [|exact Hu].
    cbn [fst db broadcastLeaderboardUpdate broadcastUpdate with_db].
    apply (unique_ext d1); [reflexivity|].
    eapply update_status_unique; eauto.
Qed.

(** The UPDATE of a decision leaves a row that is not pending as it is,
    when ids are unique and a pending row with the id exists. *)
Lemma decided_row_kept st userID now submissionID l sub p :
  NoDup (List.map Sub_ID l) ->
  List.find (fun q => (Sub_ID q =? submissionID)
                      && Status_eqb (Sub_Status q) pending) l = Some sub ->
  In p l -> Sub_Status p <> pending ->
  In p (List.map (fun q => if Sub_ID q =? submissionID
                           then decide_submission st userID now q else q) l).
Proof.
  intros Hnd Hfind Hin Hst.
  apply find_pending_in in Hfind as (Hsub & Hid & Hpend).
  apply in_map_iff. exists p. split; [|exact Hin].
  destruct (Z.eqb_spec (Sub_ID p) submissionID) as [E|E]; [|reflexivity].
  exfalso. apply Hst. rewrite <- Hpend. f_equal.
  eapply unique_id_eq; eauto. congruence.
Qed.

Lemma exec_keeps_decided now op s p :
  submission_ids_unique (db s) ->
  In p (point_submissions (db s)) -> Sub_Status p <> pending ->
  In p (point_submissions (db (fst (exec now op s)))).
Proof.
  intros Hu Hin Hst. destruct op as [body|r|r]; simpl.
  - unfold handleSubmitPoints.
    destruct body as [b|]; [|exact Hin].
    destruct (_ || _); [exact Hin|].
    unfold insert_point_submission.
    destruct (ward_exists (db s) (body_WardID b)); [|exact Hin].
    cbv zeta. unfold broadcastLeaderboardUpdate, broadcastUpdate. cbn [fst db].
    match goal with
    | |- context [logActivity ?n ?w ?u ?a ?dt ?p ?s1] =>
        destruct (logActivity_frame n w u a dt p s1) as (F1 & F2 & F3 & F4 & F5)
    end.
    cbv zeta in *. rewrite F3. cbn. apply in_or_app. now left.
  - unfold handleApprovePoints.
    destruct (getUserIDFromSession r =? 0); [exact Hin|].
    destruct (Atoi (vars_id r)) as [submissionID|]; [|exact Hin].
    destruct (select_pending submissionID (db s)) as [sub|] eqn:Hsel; [|exact Hin].
    destruct (negb _); [exact Hin|].
    unfold update_submission_status.
    destruct (_ && _); [exact Hin|].
    cbv zeta. unfold broadcastLeaderboardUpdate, broadcastUpdate. cbn [fst db].
    match goal with
    | |- context [logActivity ?n ?wd ?u ?a ?dt ?p ?s2] =>
        destruct (logActivity_frame n wd u a dt p s2) as (F1 & F2 & F3 & F4 & F5);
        match s2 with
        | checkAndAwardAchievements ?n' ?w' ?s1 =>
            destruct (checkAndAwardAchievements_frame n' w' s1)
              as (G1 & G2 & G3 & G4)
        end
    end.
    cbv zeta in *. rewrite F3, G3. cbn.
    eapply decided_row_kept; eauto.
  - unfold handleRejectPoints.
    destruct (getUserIDFromSession r =? 0); [exact Hin|].
    destruct (Atoi (vars_id r)) as [submissionID|]; [|exact Hin].
    destruct (select_pending submissionID (db s)) as [sub|] eqn:Hsel; [|exact Hin].
    destruct (negb _); [exact Hin|].
    unfold update_submission_status.
    destruct (_ && _); [exact Hin|].
    cbn. eapply decided_row_kept; eauto.
Qed.

Lemma exec_all_ids_unique requests s :
  submission_ids_unique (db s) ->
  submission_ids_unique (db (exec_all requests s)).
Proof.
  revert s. induction requests as [|[now op] rest IH]; intros s Hu; simpl;
    [exact Hu|].
  apply IH. now apply exec_ids_unique.
Qed.

Lemma exec_all_keeps_decided requests s p :
  submission_ids_unique (db s) ->
  In p (point_submissions (db s)) -> Sub_Status p <> pending ->
  In p (point_submissions (db (exec_all requests s))).
Proof.
  revert s. induction requests as [|[now op] rest IH]; intros s Hu Hin Hst;
    simpl; [exact Hin|].
  apply IH; [now apply exec_ids_unique | now apply exec_keeps_decided | exact Hst].
Qed.

(** X7.  An approved or rejected submission is final: whatever requests
    follow, its row stays in the table exactly as the decision left it
    (status, approver and approval time included), and it is the row its
    id denotes. *)
Theorem decided_submission_is_final requests s p :
  submission_ids_unique (db s) ->
  In p (point_submissions (db s)) -> Sub_Status p <> pending ->
  In p (point_submissions (db (exec_all requests s))) /\
  find_submission (Sub_ID p) (db (exec_all requests s)) = Some p /\
  select_pending (Sub_ID p) (db (exec_all requests s)) = None.
Proof.
  intros Hu Hin Hst.
  pose proof (exec_all_ids_unique requests s Hu) as Hu'.
  pose proof (exec_all_keeps_decided requests s p Hu Hin Hst) as Hin'.
  split; [exact Hin'|]. split.
  - now apply find_submission_found.
  - apply select_pending_none. intros q Hq Hid Hpend.
    apply Hst. rewrite <- Hpend. f_equal.
    eapply unique_id_eq; eauto.
Qed.

Lemma decided_submission_is_final_witness :
  In (decide_submission approved 1 9 demo_submission)
    (point_submissions
       (db (exec_all demo_requests
              (fst (exec 9 (Approve (admin_request "8")) demo_server))))) /\
  find_submission 8
    (db (exec_all demo_requests
           (fst (exec 9 (Approve (admin_request "8")) demo_server))))
    = Some (decide_submission approved 1 9 demo_submission) /\
  select_pending 8
    (db (exec_all demo_requests
           (fst (exec 9 (Approve (admin_request "8")) demo_server))))
    = None.
Proof.
  apply (decided_submission_is_final demo_requests
           (fst (exec 9 (Approve (admin_request "8")) demo_server))
           (decide_submission approved 1 9 demo_submission)).
  - apply NoDup_ListNoDup. apply (bool_decide_unpack _). vm_compute. reflexivity.
  - vm_compute. do 7 right. left. reflexivity.
  - simpl. discriminate.
Defined.

(** After a successful Reject no row with that id is pending. *)
Lemma rejected_not_pending now r s s' id msg submissionID :
  Atoi (vars_id r) = Some submissionID ->
  handleRejectPoints now r s = (s', json_success id msg) ->
  select_pending submissionID (db s') = None.
Proof.
  intros Ha. unfold handleRejectPoints. rewrite Ha.
  destruct (getUserIDFromSession r =? 0); [discriminate|].
  destruct (select_pending submissionID (db s)) as [sub|]; [|discriminate].
  destruct (negb _); [discriminate|].
  unfold update_submission_status.
  destruct (_ && _); [discriminate|]. cbv zeta.
  intros [= <- _ _]. unfold select_pending. cbn.
  now apply no_pending_after_decision.
Qed.

Lemma decision_has_id now r s s' id msg :
  handleApprovePoints now r s = (s', json_success id msg) \/
  handleRejectPoints now r s = (s', json_success id msg) ->
  exists submissionID, Atoi (vars_id r) = Some submissionID.
Proof.
  unfold handleApprovePoints, handleRejectPoints.
  destruct (getUserIDFromSession r =? 0); [intros [H|H]; discriminate|].
  destruct (Atoi (vars_id r)) as [k|]; [eauto | intros [H|H]; discriminate].
Qed.

(** No row with the id is pending: the answers of Approve and Reject. *)
Lemma not_pending_answers now r s submissionID :
  getUserIDFromSession r <> 0 -> Atoi (vars_id r) = Some submissionID ->
  select_pending submissionID (db s) = None ->
  handleApprovePoints now r s
    = (s, http_Error "Submission not found or already processed" StatusNotFound) /\
  handleRejectPoints now r s
    = (s, http_Error "Submission not found" StatusNotFound).
Proof.
  intros Hu Ha Hn. apply Z.eqb_neq in Hu.
  unfold handleApprovePoints, handleRejectPoints. now rewrite Hu, Ha, Hn.
Qed.

(** X8.  A decision cannot be taken twice.  Once Approve or Reject has
    succeeded for an id, every later Approve and every later Reject of
    that id, by whichever identified caller and after whatever other
    requests, is answered NotFound and changes nothing. *)
Theorem decision_is_final now r s s' id msg requests now' r' :
  submission_ids_unique (db s) ->
  handleApprovePoints now r s = (s', json_success id msg) \/
  handleRejectPoints now r s = (s', json_success id msg) ->
  getUserIDFromSession r' <> 0 ->
  Atoi (vars_id r') = Atoi (vars_id r) ->
  handleApprovePoints now' r' (exec_all requests s')
    = (exec_all requests s',
       http_Error "Submission not found or already processed" StatusNotFound) /\
  handleRejectPoints now' r' (exec_all requests s')
    = (exec_all requests s', http_Error "Submission not found" StatusNotFound).
Proof.
  intros Hu Hok Huid Hid.
  destruct (decision_has_id _ _ _ _ _ _ Hok) as [k Hk].
  rewrite Hk in Hid.
  assert (Hnone : select_pending k (db s') = None).
  { destruct Hok as [Hok|Hok].
    - eapply approved_not_pending; eauto.
    - eapply rejected_not_pending; eauto. }
  assert (Hu' : submission_ids_unique (db s')).
  { destruct Hok as [Hok|Hok].
    - pose proof (exec_ids_unique now (Approve r) s Hu) as H.
      simpl in H. now rewrite Hok in H.
    - pose proof (exec_ids_unique now (Reject r) s Hu) as H.
      simpl in H. now rewrite Hok in H. }
  apply (not_pending_answers _ _ _ k); auto.
  apply select_pending_none. intros q Hq Hqid Hpend.
  (* the rows with id [k] in [s'] are decided and stay as they are *)
  assert (Hrows : forall p, In p (point_submissions (db s')) -> Sub_ID p = k ->
                            Sub_Status p <> pending)
    by (exact (proj1 (select_pending_none (db s') k) Hnone)).
  assert (Hex : exists p, In p (point_submissions (db s')) /\ Sub_ID p = k).
  { destruct Hok as [Hok|Hok].
    - unfold handleApprovePoints in Hok. rewrite Hk in Hok.
      destruct (getUserIDFromSession r =? 0); [discriminate|].
      destruct (select_pending k (db s)) as [sub|] eqn:Hsel; [|discriminate].
      destruct (negb _); [discriminate|].
      unfold update_submission_status in Hok.
      destruct (_ && _); [discriminate|]. cbv zeta in Hok.
      injection Hok as <- _ _.
      apply find_pending_in in Hsel as (Hin & Hsid & _).
      unfold broadcastLeaderboardUpdate, broadcastUpdate. cbn [db].
      match goal with
      | |- context [logActivity ?n ?wd ?u ?a ?dt ?p ?s2] =>
          destruct (logActivity_frame n wd u a dt p s2) as (F1 & F2 & F3 & F4 & F5);
          match s2 with
          | checkAndAwardAchievements ?n' ?w' ?s1 =>
              destruct (checkAndAwardAchievements_frame n' w' s1)
                as (G1 & G2 & G3 & G4)
          end
      end.
      cbv zeta in *. rewrite F3, G3. cbn.
      eexists. split.
      + apply in_map_iff. exists sub. split; [reflexivity | exact Hin].
      + apply Z.eqb_eq in Hsid. rewrite Hsid. cbn. now apply Z.eqb_eq.
    - unfold handleRejectPoints in Hok. rewrite Hk in Hok.
      destruct (getUserIDFromSession r =? 0); [discriminate|].
      destruct (select_pending k (db s)) as [sub|] eqn:Hsel; [|discriminate].
      destruct (negb _); [discriminate|].
      unfold update_submission_status in Hok.
      destruct (_ && _); [discriminate|]. cbv zeta in Hok.
      injection Hok as <- _ _.
      apply find_pending_in in Hsel as (Hin & Hsid & _). cbn.
      eexists. split.
      + apply in_map_iff. exists sub. split; [reflexivity | exact Hin].
      + apply Z.eqb_eq in Hsid. rewrite Hsid. cbn. now apply Z.eqb_eq. }
  destruct Hex as (p & Hp & Hpid).
  pose proof (exec_all_keeps_decided requests s' p Hu' Hp (Hrows p Hp Hpid)) as Hp'.
  pose proof (exec_all_ids_unique requests s' Hu') as Hu''.
  apply (Hrows p Hp Hpid). rewrite <- Hpend. f_equal.
  eapply unique_id_eq; eauto. congruence.
Qed.

Lemma decision_is_final_witness :
  handleApprovePoints 20 (admin_request "9")
    (exec_all demo_requests
       (fst (handleRejectPoints 4 (admin_request "9") demo_server)))
  = (exec_all demo_requests
       (fst (handleRejectPoints 4 (admin_request "9") demo_server)),
     http_Error "Submission not found or already processed" StatusNotFound) /\
  handleRejectPoints 20 (admin_request "9")
    (exec_all demo_requests
       (fst (handleRejectPoints 4 (admin_request "9") demo_server)))
  = (exec_all demo_requests
       (fst (handleRejectPoints 4 (admin_request "9") demo_server)),
     http_Error "Submission not found" StatusNotFound).
Proof.
  apply (decision_is_final 4 (admin_request "9") demo_server _ None
           "Points rejected" demo_requests 20 (admin_request "9")).
  - apply NoDup_ListNoDup. apply (bool_decide_unpack _). vm_compute. reflexivity.
  - right. vm_compute. reflexivity.
  - vm_compute. discriminate.
  - reflexivity.
Defined.

End Finality.
